(** * Verification of [src/regular/prices.py] (price-project)

    Shallow embedding of the symbol normaliser, of the CSV ledger
    reconciler [ensure_header_and_append_row], of the quote fetcher
    [get_prices], of [parse_symbols_from_env] and of [main], with their
    properties.  [utc_iso_z] is not modelled: [main] receives the timestamp
    it returns as a string.

    Modelling conventions.
    - Python [str] values are modelled as Rocq [string]s over ASCII; [strip]
      removes the characters for which Python's [str.isspace] holds in the
      ASCII range, [upper] maps [a-z] to [A-Z].
    - The CSV file is modelled at the level of records, as [csv.reader]
      yields them: [None] is an absent file, [Some recs] a file whose
      records are [recs].  The [csv] module writes records with its
      quoting rules and reads them back as written, so a write followed by
      a read is the identity on records (a record with a single empty
      field is written quoted and comes back as [[""]]).
    - A float stored in a price map is kept as the text the [csv] writer
      renders for it ([repr] of the float, e.g. ["50000.0"]).
    - Python floats produced by [get_prices] are IEEE binary64 values,
      modelled with the Standard Library's [spec_float]. *)

From Stdlib Require Import String Ascii ZArith Floats.SpecFloat.
From stdpp Require Import base list gmap sets strings.

Open Scope string_scope.
Open Scope list_scope.

(* ------------------------------------------------------------------ *)
(** ** Python string helpers: [str.strip] and [str.upper] *)

(** [str.isspace] on one ASCII character: TAB, LF, VT, FF, CR, the
    separators 0x1C-0x1F and SPACE. *)
Definition is_space (c : ascii) : bool :=
  let n := nat_of_ascii c in
  ((9 <=? n) && (n <=? 13) || (28 <=? n) && (n <=? 32))%nat.

(** [str.lstrip()] *)
Fixpoint lstrip (s : string) : string :=
  match s with
  | EmptyString => EmptyString
  | String c s' => if is_space c then lstrip s' else s
  end.

(** [str.rstrip()]: a character survives unless it is a space followed by
    nothing but spaces. *)
Fixpoint rstrip (s : string) : string :=
  match s with
  | EmptyString => EmptyString
  | String c s' =>
      let r := rstrip s' in
      if String.eqb r "" && is_space c then "" else String c r
  end.

(** [str.strip()] *)
Definition strip (s : string) : string := rstrip (lstrip s).

(** [str.upper()] on one ASCII character. *)
Definition upper_char (c : ascii) : ascii :=
  let n := nat_of_ascii c in
  if ((97 <=? n) && (n <=? 122))%nat then ascii_of_nat (n - 32)%nat else c.

(** [str.upper()] *)
Fixpoint upper (s : string) : string :=
  match s with
  | EmptyString => EmptyString
  | String c s' => String (upper_char c) (upper s')
  end.

(* ------------------------------------------------------------------ *)
(** ** [normalize_symbols] (lines 39-52) *)

(** One iteration of the [for s in symbols] loop; the state is the pair
    [(cleaned, seen)]. *)
Definition normalize_step (st : list string * gset string) (s : string)
  : list string * gset string :=
  let '(cleaned, seen) := st in
  if String.eqb s "" || String.eqb (strip s) "" then st
  else
    let sym := upper (strip s) in
    if bool_decide (sym ∈ seen) then st
    else (cleaned ++ [sym], {[sym]} ∪ seen).

Definition normalize_symbols (symbols : list string) : list string :=
  fst (fold_left normalize_step symbols ([], ∅)).

Example normalize_symbols_ex :
  normalize_symbols ["btc"; " ETH"; "BTC"] = ["BTC"; "ETH"].
Proof. vm_compute. reflexivity. Qed.

(** The canonical form of a raw symbol, and the test for the entries the
    loop skips. *)
Definition canon (s : string) : string := upper (strip s).
Definition blank (s : string) : bool := String.eqb s "" || String.eqb (strip s) "".

(** The canonical forms of the non-blank inputs, in input order, with
    repetitions: the sequence whose first occurrences the normaliser keeps. *)
Definition canon_list (xs : list string) : list string :=
  map canon (List.filter (fun x => negb (blank x)) xs).

(* ------------------------------------------------------------------ *)
(** ** The CSV layer: [csv.DictReader] and [csv.DictWriter] *)

(** A record of the file, as [csv.reader] yields it. *)
Abbreviation record := (list string) (only parsing).

(** The file at [csv_path]: [None] when [os.path.exists] is false, else its
    records.  Every file the [csv] writer produces ends with a line
    terminator, so opening it in mode ["a"] and writing one record appends
    that record. *)
Abbreviation csv_file := (option (list record)) (only parsing).

(** A value of a Python dict handed to [DictWriter] or produced by
    [DictReader]: [None] is Python's [None], [Some s] a [str] (or a float,
    kept as the text the writer renders for it). *)
Abbreviation cell := (option string) (only parsing).

(** The [csv] writer renders [None] as the empty string. *)
Definition render (v : cell) : string :=
  match v with Some s => s | None => "" end.

(** [DictWriter(f, fieldnames).writerow(rowdict)] with the defaults
    [restval=""] and [extrasaction="raise"]: a key of [rowdict] outside
    [fieldnames] raises [ValueError] ([None] here); otherwise the record
    [[rowdict.get(k, "") for k in fieldnames]] is written. *)
Definition dictwriter_row (fieldnames : list string)
    (rowdict : gmap string cell) : option record :=
  if bool_decide (dom rowdict ⊆ list_to_set fieldnames)
  then Some (map (fun k => render (default (Some "") (rowdict !! k))) fieldnames)
  else None.

(** [dict(zip(fieldnames, row))]: pairs are inserted left to right, so a
    repeated field name keeps the value of its last occurrence. *)
Fixpoint zip_insert (d : gmap string cell) (ks vs : list string) : gmap string cell :=
  match ks, vs with
  | k :: ks', v :: vs' => zip_insert (<[k := Some v]> d) ks' vs'
  | _, _ => d
  end.

(** One row of [csv.DictReader] with [restkey=None] and [restval=None].  A
    row shorter than the header gets [None] for the missing field names; the
    surplus of a longer row is stored under the key [None], which is not a
    string and is never looked up by the code, so it is not represented. *)
Definition dictreader_row (fieldnames row : list string) : gmap string cell :=
  let d := zip_insert ∅ fieldnames row in
  if Nat.leb (length fieldnames) (length row) then d
  else fold_left (fun d k => <[k := None]> d) (drop (length row) fieldnames) d.

(** The rows [csv.DictReader] yields for the data records [rows] under the
    header [fieldnames]: empty records (blank lines) are skipped. *)
Definition dictreader_rows (fieldnames : list string) (rows : list record)
    : list (gmap string cell) :=
  map (dictreader_row fieldnames)
      (List.filter (fun r => negb (bool_decide (r = []))) rows).

(* ------------------------------------------------------------------ *)
(** ** [ensure_header_and_append_row] (lines 126-189) *)

(** [{h: row.get(h, "") for h in union_header}] (line 174). *)
Definition reproject (union_header : list string) (row : gmap string cell)
    : gmap string cell :=
  fold_left (fun d h => <[h := default (Some "") (row !! h)]> d) union_header ∅.

(** [{"timestamp": timestamp, **{s: price_map.get(s, "") for s in symbols}}]
    (lines 145 and 159). *)
Definition first_row (timestamp : string) (symbols : list string)
    (price_map : gmap string string) : gmap string cell :=
  fold_left (fun d s => <[s := Some (default "" (price_map !! s))]> d)
            symbols {["timestamp" := Some timestamp]}.

(** [row_to_write] (lines 183-185), built over [union_header[1:]]. *)
Definition row_to_write (timestamp : string) (cols : list string)
    (price_map : gmap string string) : gmap string cell :=
  fold_left (fun d col => <[col := Some (default "" (price_map !! col))]> d)
            cols {["timestamp" := Some timestamp]}.

(** [[c for c in old_header if c and c != "timestamp"]] (line 164). *)
Definition old_cols_of (old_header : list string) : list string :=
  List.filter (fun c => negb (String.eqb c "") && negb (String.eqb c "timestamp"))
              old_header.

(** [[c for c in symbols if c not in old_cols]] (line 165). *)
Definition new_cols_of (old_cols symbols : list string) : list string :=
  List.filter (fun c => negb (bool_decide (c ∈ old_cols))) symbols.

(** [["timestamp"] + old_cols + new_cols] (line 166). *)
Definition union_header_of (old_header symbols : list string) : list string :=
  let old_cols := old_cols_of old_header in
  "timestamp" :: old_cols ++ new_cols_of old_cols symbols.

(** [next(reader, None)] on the records of an existing file. *)
Definition first_record (recs : list record) : option record :=
  match recs with [] => None | h :: _ => Some h end.

(** The whole function: the file before the call, and the file after it, or
    [None] if a [DictWriter] raised [ValueError]. *)
Definition ensure_header_and_append_row (f : csv_file) (timestamp : string)
    (symbols : list string) (price_map : gmap string string)
    : option (list record) :=
  let symbols := normalize_symbols symbols in
  let desired_header := "timestamp" :: symbols in
  (* Cases 1 and 2: open in mode "w", writeheader, writerow. *)
  let create :=
    row ← dictwriter_row desired_header (first_row timestamp symbols price_map);
    Some [desired_header; row] in
  match f with
  | None => create
  | Some recs =>
      match first_record recs with
      | None | Some [] => create
      | Some old_header =>
          let union_header := union_header_of old_header symbols in
          recs' ← (if bool_decide (union_header = old_header) then Some recs
                   else
                     rows ← mapM (dictwriter_row union_header)
                               (map (reproject union_header)
                                    (dictreader_rows old_header (tail recs)));
                     Some (union_header :: rows));
          row ← dictwriter_row union_header
                  (row_to_write timestamp (tail union_header) price_map);
          Some (recs' ++ [row])
      end
  end.

(** The written form of a row read under header [H], re-projected onto [U]
    by line 174 and written by [DictWriter]. *)
Definition reread (H : list string) (U : list string) (r : record) : record :=
  map (fun h => render (default (Some "") (dictreader_row H r !! h))) U.

(** The files produced by the reconciler: created from an absent file,
    then updated by any number of further calls. *)
Inductive produced : list record -> Prop :=
| produced_create (ts : string) (symbols : list string)
    (pm : gmap string string) (out : list record) :
    ensure_header_and_append_row None ts symbols pm = Some out -> produced out
| produced_update (recs : list record) (ts : string) (symbols : list string)
    (pm : gmap string string) (out : list record) :
    produced recs ->
    ensure_header_and_append_row (Some recs) ts symbols pm = Some out ->
    produced out.

(** A well-formed ledger: the header is [timestamp] followed by distinct,
    non-empty columns other than [timestamp], and every data record has one
    cell per column. *)
Definition wf_ledger (out : list record) : Prop :=
  exists cols rows,
    out = ("timestamp" :: cols) :: rows /\ NoDup cols /\ ("" ∉ cols) /\
    ("timestamp" ∉ cols) /\ forall r, r ∈ rows -> length r = S (length cols).

(* ------------------------------------------------------------------ *)
(** ** [get_prices] (lines 59-119) *)

(** JSON values as [r.json()] returns them: [null], booleans, integers,
    floats (binary64; [json.loads] also yields [inf] for a literal such as
    [1e400] and accepts [NaN] and [Infinity]), strings, arrays and objects
    (an object keeps its members in order; a repeated key keeps its last
    value). *)
#[local] Set Warnings "-register-all".
Inductive json : Type :=
| JNull
| JBool (b : bool)
| JInt (z : Z)
| JFloat (f : spec_float)
| JStr (s : string)
| JArr (l : list json)
| JObj (kvs : list (string * json)).

(** Where [get_prices] raises [RuntimeError] (the message of each raise). *)
Inductive raise_site : Type :=
| NoApiKey          (* line 65 *)
| EmptySymbols      (* line 71 *)
| NetworkFailure    (* line 86 *)
| HttpStatus (code : Z)  (* line 89 *)
| ApiErrorCode.     (* line 94 *)

(** Python exceptions that can leave [get_prices]. *)
Inductive exn : Type :=
| RuntimeError (site : raise_site)
| AttributeError   (* [.get] on a value that is not a dict *)
| TypeError
| ValueError
| OverflowError
| JSONDecodeError. (* [r.json()] on a body that is not JSON *)

(** The class name of an exception. *)
Definition exn_class (e : exn) : string :=
  match e with
  | RuntimeError _ => "RuntimeError"
  | AttributeError => "AttributeError"
  | TypeError => "TypeError"
  | ValueError => "ValueError"
  | OverflowError => "OverflowError"
  | JSONDecodeError => "JSONDecodeError"
  end.

(** A computation that returns a value or raises. *)
Inductive result (A : Type) : Type :=
| Ok (a : A)
| Err (e : exn).
Arguments Ok {A} a.
Arguments Err {A} e.

Notation "'let?' x := m 'in' k" :=
  (match m with Ok x => k | Err e => Err e end)
  (at level 200, x name, m at level 100, k at level 200).

(** What [requests.get] gives: a [RequestException] (transport failure or
    timeout), or a response with its status code and its body, [None] when
    the body is not JSON. *)
Inductive http_outcome : Type :=
| Transport_error
| Response (status_code : Z) (body : option json).

(** [kvs[k]] for a JSON object: the last member with key [k]. *)
Definition obj_get (kvs : list (string * json)) (k : string) : option json :=
  fold_left (fun acc kv => if String.eqb kv.1 k then Some kv.2 else acc) kvs None.

(** [v.get(k, default)]: only a dict has [.get]. *)
Definition py_get (v : json) (k : string) (default : json) : result json :=
  match v with
  | JObj kvs => Ok (match obj_get kvs k with Some x => x | None => default end)
  | _ => Err AttributeError
  end.

(** Python truthiness. *)
Definition truthy (v : json) : bool :=
  match v with
  | JNull => false
  | JBool b => b
  | JInt z => negb (Z.eqb z 0)
  | JFloat (S754_zero _) => false
  | JFloat _ => true
  | JStr s => negb (String.eqb s "")
  | JArr l => negb (Nat.eqb (length l) 0)
  | JObj kvs => negb (Nat.eqb (length kvs) 0)
  end.

(** [v or {}] *)
Definition or_empty (v : json) : json := if truthy v then v else JObj [].

(** [v != 0]: [False] and [0.0] compare equal to [0], NaN does not. *)
Definition ne_zero (v : json) : bool :=
  match v with
  | JBool b => b
  | JInt z => negb (Z.eqb z 0)
  | JFloat (S754_zero _) => false
  | _ => true
  end.

(** IEEE binary64: 53 bits of precision, largest exponent 1024. *)
Definition to_binary64 (z : Z) : spec_float := binary_normalize 53 1024 z 0 false.

(** [float(int)]: rounds to nearest, raises [OverflowError] when the
    rounded value is not finite. *)
Definition float_of_int (z : Z) : result spec_float :=
  match to_binary64 z with
  | S754_infinity _ => Err OverflowError
  | f => Ok f
  end.

Section GetPrices.

(** [float(s)] on a [str]: a binary64 value, or [ValueError]. *)
Variable float_of_str : string -> result spec_float.

(** [float(v)] (line 115). *)
Definition py_float (v : json) : result spec_float :=
  match v with
  | JFloat f => Ok f
  | JInt z => float_of_int z
  | JBool b => Ok (if b then SFone 53 1024 else S754_zero false)
  | JStr s => float_of_str s
  | JNull | JArr _ | JObj _ => Err TypeError
  end.

(** Lines 102-112 for one symbol: [Ok None] when the symbol is skipped
    (entry missing or falsy, price missing or [None]), [Ok (Some price)]
    otherwise. *)
Definition quote_price (returned : json) (sym convert : string)
    : result (option json) :=
  let? item := py_get returned sym JNull in
  if negb (truthy item) then Ok None
  else
    let? q := py_get item "quote" JNull in
    let? qc := py_get (or_empty q) convert JNull in
    let? price := py_get (or_empty qc) "price" JNull in
    match price with
    | JNull => Ok None
    | _ => Ok (Some price)
    end.

(** One iteration of the loop of lines 101-117. *)
Definition collect_step (returned : json) (convert : string)
    (acc : result (gmap string spec_float)) (sym : string)
    : result (gmap string spec_float) :=
  let? out := acc in
  let? p := quote_price returned sym convert in
  match p with
  | None => Ok out
  | Some price =>
      match py_float price with
      | Ok f => Ok (<[sym := f]> out)
      | Err TypeError | Err ValueError => Ok out
      | Err e => Err e
      end
  end.

(** The whole function; [api_key] is [CMC_API_KEY] and [response] what the
    server answers to the request built on lines 73-84.  The warnings
    printed for skipped symbols are not modelled. *)
Definition get_prices (api_key : option string) (response : http_outcome)
    (symbols : list string) (convert : string) : result (gmap string spec_float) :=
  match api_key with
  | None | Some "" => Err (RuntimeError NoApiKey)
  | Some _ =>
      let symbols := normalize_symbols symbols in
      match symbols with
      | [] => Err (RuntimeError EmptySymbols)
      | _ =>
          match response with
          | Transport_error => Err (RuntimeError NetworkFailure)
          | Response code body =>
              if negb (Z.eqb code 200) then Err (RuntimeError (HttpStatus code))
              else
                match body with
                | None => Err JSONDecodeError
                | Some data =>
                    let? status := py_get data "status" (JObj []) in
                    let? ec := py_get (or_empty status) "error_code" (JInt 0) in
                    if ne_zero ec then Err (RuntimeError ApiErrorCode)
                    else
                      let? returned := py_get data "data" (JObj []) in
                      fold_left (collect_step (or_empty returned) convert)
                                symbols (Ok ∅)
                end
          end
      end
  end.

End GetPrices.

(** binary64 values that are neither infinite nor NaN. *)
Definition is_finite (f : spec_float) : bool :=
  match f with
  | S754_infinity _ | S754_nan => false
  | _ => true
  end.

(** A response body [{"status": {"error_code": 0}, "data": {"BTC": {"quote":
    {"USD": {"price": p}}}}}]. *)
Definition quote_body (sym convert : string) (p : json) : json :=
  JObj [("status", JObj [("error_code", JInt 0)]);
        ("data", JObj [(sym, JObj [("quote", JObj [(convert, JObj [("price", p)])])])])].

(** A [float] on strings that rejects every string. *)
Definition reject_str (s : string) : result spec_float := Err ValueError.

(* ------------------------------------------------------------------ *)
(** ** The request's [symbol] parameter (lines 69 and 78-81) *)

(** [",".join(symbols)] on the normalised symbols: the value of the
    [symbol] query parameter that [get_prices] sends. *)
Definition symbol_param (symbols : list string) : string :=
  String.concat "," (normalize_symbols symbols).

(** [s.split(",")]: the pieces between the commas, [[""]] for the empty
    string. *)
Fixpoint split_comma (s : string) : list string :=
  match s with
  | EmptyString => [""]
  | String c s' =>
      let parts := split_comma s' in
      if Ascii.eqb c "," then "" :: parts
      else match parts with
           | p :: ps => String c p :: ps
           | [] => [String c ""]
           end
  end.

(** Strings without a comma. *)
Fixpoint no_comma (s : string) : bool :=
  match s with
  | EmptyString => true
  | String c s' => negb (Ascii.eqb c ",") && no_comma s'
  end.

(* ------------------------------------------------------------------ *)
(** ** [parse_symbols_from_env] and [main] (lines 196-219) *)

(** [os.getenv(name, default)] on the value of the variable, [None] when it
    is unset. *)
Definition getenv (v : option string) (default : string) : string :=
  match v with Some s => s | None => default end.

(** Lines 196-203; [symbols_env] is [SYMBOLS_ENV]. *)
Definition parse_symbols_from_env (symbols_env : string) (default : list string)
    : list string :=
  if negb (String.eqb (strip symbols_env) "") then
    let parts := map strip (split_comma symbols_env) in
    match normalize_symbols parts with
    | [] => default
    | symbols => symbols
    end
  else default.

(** [default_symbols] of [main] (line 207). *)
Definition default_symbols : list string :=
  ["BTC"; "ETH"; "ADA"; "XRP"; "SOL"; "SUI"; "AVAX"; "POL"; "API3"].

(** The environment after [load_dotenv()]: the values of [CMC_API_KEY],
    [SYMBOLS] and [CONVERT], [None] when unset. *)
Record env : Type := {
  env_cmc_api_key : option string;
  env_symbols : option string;
  env_convert : option string
}.

(** [symbols] of [main] (line 208), with [SYMBOLS_ENV = os.getenv("SYMBOLS", "")]. *)
Definition main_symbols (e : env) : list string :=
  parse_symbols_from_env (getenv (env_symbols e) "") default_symbols.

(** [convert] of [main] (line 209), with
    [CONVERT_ENV = os.getenv("CONVERT", "USD")]. *)
Definition main_convert (e : env) : string :=
  let convert_env := getenv (env_convert e) "USD" in
  upper (strip (if String.eqb convert_env "" then "USD" else convert_env)).

Section Main.

(** [float(s)] on a [str], as for [get_prices]. *)
Variable float_of_str : string -> result spec_float.
(** [repr] of a float: the text the [csv] writer writes for it. *)
Variable float_repr : spec_float -> string.

(** [main()] (lines 206-219) on the environment [e], the server's answer
    [response], the timestamp [ts] that [utc_iso_z()] returns and the
    ledger file [f]: whether it returns or raises, and the file after it.
    This describes the runs in which the ledger's file operations and the
    prints succeed.  The exceptions these can raise are not modelled: an
    [OSError] from [open] or a write, a [UnicodeDecodeError] or
    [csv.Error] while reading the ledger, the state of the file when a
    write fails after the truncating [open(csv_path, "w")] of line 177,
    and an encoding error of the final [print].  The one exception of
    [ensure_header_and_append_row] that is modelled, the [ValueError] of
    [DictWriter] on a key outside its field names (the [None] branch), is
    never raised ([reconcile_shape]). *)
Definition main (e : env) (response : http_outcome) (ts : string) (f : csv_file)
    : result unit * csv_file :=
  let symbols := main_symbols e in
  let convert := main_convert e in
  match get_prices float_of_str (env_cmc_api_key e) response symbols convert with
  | Err ex => (Err ex, f)
  | Ok prices =>
      match ensure_header_and_append_row f ts symbols (float_repr <$> prices) with
      | Some out => (Ok tt, Some out)
      | None => (Err ValueError, f)
      end
  end.

End Main.

(* ================================================================== *)
(** * Proofs *)

(* ------------------------------------------------------------------ *)
(** ** Normaliser *)

Lemma fold_normalize_inv (xs : list string) :
  snd (fold_left normalize_step xs ([], ∅)) =
  list_to_set (fst (fold_left normalize_step xs ([], ∅))).
Proof.
  induction xs as [|x xs IH] using rev_ind; [reflexivity|].
  rewrite fold_left_app. simpl.
  destruct (fold_left normalize_step xs ([], ∅)) as [cl seen]; simpl in *.
  destruct (_ || _); [done|].
  case_bool_decide; [done|]. simpl.
  rewrite list_to_set_app_L, IH. simpl. set_solver.
Qed.

Lemma normalize_symbols_snoc (xs : list string) (x : string) :
  normalize_symbols (xs ++ [x]) =
  normalize_symbols xs ++
    (if blank x || bool_decide (canon x ∈ normalize_symbols xs) then []
     else [canon x]).
Proof.
  unfold normalize_symbols. rewrite fold_left_app.
  pose proof (fold_normalize_inv xs) as Hinv.
  destruct (fold_left normalize_step xs ([], ∅)) as [cl seen]; simpl in *.
  subst seen. unfold blank, canon.
  destruct (_ || _); simpl; [by rewrite app_nil_r|].
  rewrite (bool_decide_ext _ (upper (strip x) ∈ cl)) by apply elem_of_list_to_set.
  by case_bool_decide; simpl; [rewrite app_nil_r|].
Qed.

Lemma normalize_symbols_nil : normalize_symbols [] = [].
Proof. reflexivity. Qed.

Lemma canon_list_snoc (xs : list string) (x : string) :
  canon_list (xs ++ [x]) = canon_list xs ++ (if blank x then [] else [canon x]).
Proof.
  unfold canon_list. rewrite List.filter_app, map_app. simpl.
  by destruct (blank x); simpl; [rewrite app_nil_r|].
Qed.

Lemma elem_of_normalize_symbols (xs : list string) (y : string) :
  y ∈ normalize_symbols xs ↔ y ∈ canon_list xs.
Proof.
  induction xs as [|x xs IH] using rev_ind; [done|].
  rewrite normalize_symbols_snoc, canon_list_snoc, !elem_of_app, IH.
  destruct (blank x) eqn:Hb; simpl; [set_solver|].
  case_bool_decide as Hin; rewrite ?IH in Hin; set_solver.
Qed.

Lemma NoDup_normalize_symbols (xs : list string) : NoDup (normalize_symbols xs).
Proof.
  induction xs as [|x xs IH] using rev_ind; [constructor|].
  rewrite normalize_symbols_snoc.
  destruct (blank x || _) eqn:Hc; [by rewrite app_nil_r|].
  apply orb_false_iff in Hc as [_ Hc]. apply bool_decide_eq_false in Hc.
  apply NoDup_app. split; [done|]. split; [|apply NoDup_singleton].
  intros z Hz Hz'. apply list_elem_of_singleton in Hz'. subst. done.
Qed.

Lemma normalize_symbols_order (xs : list string) (i j : nat) (a b : string) :
  normalize_symbols xs !! i = Some a -> normalize_symbols xs !! j = Some b ->
  i < j ->
  exists k, canon_list xs !! k = Some a /\
            forall k', k' <= k -> canon_list xs !! k' <> Some b.
Proof.
  induction xs as [|x xs IH] using rev_ind; [done|].
  rewrite normalize_symbols_snoc, canon_list_snoc.
  destruct (blank x || _) eqn:Hc.
  - rewrite !app_nil_r. intros Ha Hb Hij.
    destruct (IH Ha Hb Hij) as (k & Hk & Hk').
    exists k. split; [by apply lookup_app_l_Some|].
    intros k' Hle. rewrite lookup_app_l; [by apply Hk'|].
    apply lookup_lt_Some in Hk. lia.
  - apply orb_false_iff in Hc as [Hbl Hc]. apply bool_decide_eq_false in Hc.
    rewrite Hbl. intros Ha Hb Hij.
    pose proof (lookup_lt_Some _ _ _ Hb) as Hjlen.
    rewrite length_app in Hjlen; simpl in Hjlen.
    assert (Hi : i < length (normalize_symbols xs)) by lia.
    rewrite lookup_app_l in Ha by done.
    destruct (decide (j < length (normalize_symbols xs))) as [Hj|Hj].
    + rewrite lookup_app_l in Hb by done.
      destruct (IH Ha Hb Hij) as (k & Hk & Hk').
      exists k. split; [by apply lookup_app_l_Some|].
      intros k' Hle. rewrite lookup_app_l; [by apply Hk'|].
      apply lookup_lt_Some in Hk. lia.
    + rewrite lookup_app_r in Hb by lia.
      apply list_lookup_singleton_Some in Hb as [_ <-].
      assert (Ha' : a ∈ canon_list xs).
      { apply elem_of_normalize_symbols. by eapply list_elem_of_lookup_2. }
      apply list_elem_of_lookup in Ha' as [k Hk].
      exists k. split; [by apply lookup_app_l_Some|].
      intros k' Hle Hk'. apply Hc.
      apply elem_of_normalize_symbols.
      rewrite lookup_app_l in Hk' by (apply lookup_lt_Some in Hk; lia).
      by eapply list_elem_of_lookup_2.
Qed.

(* ------------------------------------------------------------------ *)
(** ** [strip] and [upper] *)

Lemma is_space_upper_char (c : ascii) : is_space (upper_char c) = is_space c.
Proof. destruct c as [[] [] [] [] [] [] [] []]; reflexivity. Qed.

Lemma upper_char_idem (c : ascii) : upper_char (upper_char c) = upper_char c.
Proof. destruct c as [[] [] [] [] [] [] [] []]; reflexivity. Qed.

Lemma upper_idem (s : string) : upper (upper s) = upper s.
Proof. induction s as [|c s IH]; simpl; [done|]. by rewrite upper_char_idem, IH. Qed.

Lemma upper_empty (s : string) : String.eqb (upper s) "" = String.eqb s "".
Proof. by destruct s. Qed.

Lemma lstrip_upper (s : string) : lstrip (upper s) = upper (lstrip s).
Proof.
  induction s as [|c s IH]; simpl; [done|].
  rewrite is_space_upper_char. by destruct (is_space c).
Qed.

Lemma rstrip_upper (s : string) : rstrip (upper s) = upper (rstrip s).
Proof.
  induction s as [|c s IH]; simpl; [done|].
  rewrite IH, upper_empty, is_space_upper_char.
  by destruct (String.eqb (rstrip s) "" && is_space c).
Qed.

Lemma strip_upper (s : string) : strip (upper s) = upper (strip s).
Proof. unfold strip. by rewrite lstrip_upper, rstrip_upper. Qed.

Lemma lstrip_idem (s : string) : lstrip (lstrip s) = lstrip s.
Proof.
  induction s as [|c s IH]; simpl; [done|].
  destruct (is_space c) eqn:Hc; [done|]. simpl. by rewrite Hc.
Qed.

Lemma rstrip_idem (s : string) : rstrip (rstrip s) = rstrip s.
Proof.
  induction s as [|c s IH]; simpl; [done|].
  destruct (String.eqb (rstrip s) "" && is_space c) eqn:Hc; [done|].
  simpl. by rewrite IH, Hc.
Qed.

Lemma lstrip_rstrip (t : string) : lstrip t = t -> lstrip (rstrip t) = rstrip t.
Proof.
  destruct t as [|c t]; simpl; [done|].
  destruct (is_space c) eqn:Hc.
  - intros H. exfalso. apply (f_equal String.length) in H.
    assert (String.length (lstrip t) <= String.length t).
    { clear. induction t as [|d t IH]; simpl; [lia|]. destruct (is_space d); simpl; lia. }
    simpl in H. lia.
  - intros _. rewrite andb_false_r. simpl. by rewrite Hc.
Qed.

Lemma strip_idem (s : string) : strip (strip s) = strip s.
Proof.
  unfold strip. rewrite lstrip_rstrip by apply lstrip_idem. apply rstrip_idem.
Qed.

Lemma canon_idem (s : string) : canon (canon s) = canon s.
Proof. unfold canon. by rewrite strip_upper, strip_idem, upper_idem. Qed.

Lemma blank_canon (s : string) : blank s = false -> blank (canon s) = false.
Proof.
  unfold blank, canon. intros Hb. apply orb_false_iff in Hb as [_ Hb].
  rewrite strip_upper, strip_idem, !upper_empty, Hb. done.
Qed.

(** Every entry of the output is a canonical, non-blank symbol. *)
Lemma normalize_symbols_canonical (xs : list string) (y : string) :
  y ∈ normalize_symbols xs -> canon y = y /\ blank y = false.
Proof.
  rewrite elem_of_normalize_symbols. unfold canon_list.
  intros (x & -> & Hx)%list_elem_of_fmap.
  apply list_elem_of_In, filter_In in Hx as [_ Hx]. apply negb_true_iff in Hx.
  split; [apply canon_idem|by apply blank_canon].
Qed.

(** On a duplicate-free list of canonical symbols the normaliser is the
    identity. *)
Lemma normalize_symbols_canonical_id (ys : list string) :
  NoDup ys -> (forall y, y ∈ ys -> canon y = y /\ blank y = false) ->
  normalize_symbols ys = ys.
Proof.
  induction ys as [|y ys IH] using rev_ind; [done|].
  intros [Hnd Hy]%NoDup_app Hc. rewrite normalize_symbols_snoc.
  rewrite IH; [|done|intros z Hz; apply Hc; set_solver].
  destruct (Hc y) as [Hcy Hby]; [set_solver|].
  rewrite Hby, Hcy. simpl.
  rewrite bool_decide_eq_false_2; [done|].
  intros Hin. destruct Hy as [Hy _]. by apply (Hy y); [|set_solver].
Qed.

Lemma timestamp_not_in_normalize_symbols (xs : list string) :
  "timestamp" ∉ normalize_symbols xs.
Proof.
  intros H. apply normalize_symbols_canonical in H as [Hc _].
  vm_compute in Hc. discriminate.
Qed.

(* ------------------------------------------------------------------ *)
(** ** Dict comprehensions and the [csv] writer *)

Lemma fold_insert_lookup {V} (g : string -> V) (ks : list string)
    (d : gmap string V) (k : string) :
  fold_left (fun d h => <[h := g h]> d) ks d !! k =
  if bool_decide (k ∈ ks) then Some (g k) else d !! k.
Proof.
  revert d. induction ks as [|k' ks IH]; intros d; simpl.
  - try (case_bool_decide; [set_solver|]); done.
  - rewrite IH. case_bool_decide as Hin; case_bool_decide as Hin'; try done.
    + set_solver.
    + apply elem_of_cons in Hin' as [->|]; [|done].
      by rewrite lookup_insert_eq.
    + rewrite lookup_insert_ne; [done|]. set_solver.
Qed.

Lemma reproject_lookup (U : list string) (row : gmap string cell) (h : string) :
  reproject U row !! h =
  if bool_decide (h ∈ U) then Some (default (Some "") (row !! h)) else None.
Proof.
  unfold reproject.
  rewrite (fold_insert_lookup (fun h => default (Some "") (row !! h))).
  by case_bool_decide.
Qed.

Lemma row_to_write_lookup (ts : string) (cols : list string)
    (pm : gmap string string) (k : string) :
  row_to_write ts cols pm !! k =
  if bool_decide (k ∈ cols) then Some (Some (default "" (pm !! k)))
  else if bool_decide (k = "timestamp") then Some (Some ts) else None.
Proof.
  unfold row_to_write.
  rewrite (fold_insert_lookup (fun col => Some (default "" (pm !! col)))).
  case_bool_decide; [done|].
  case_bool_decide as Hk; [subst; by rewrite lookup_singleton_eq|].
  by rewrite lookup_singleton_ne.
Qed.

Lemma first_row_row_to_write (ts : string) (symbols : list string)
    (pm : gmap string string) :
  first_row ts symbols pm = row_to_write ts symbols pm.
Proof. reflexivity. Qed.

Lemma dictwriter_row_Some (fieldnames : list string) (d : gmap string cell) :
  (forall k, is_Some (d !! k) -> k ∈ fieldnames) ->
  dictwriter_row fieldnames d =
  Some (map (fun k => render (default (Some "") (d !! k))) fieldnames).
Proof.
  intros Hd. unfold dictwriter_row. rewrite bool_decide_eq_true_2; [done|].
  intros k Hk%elem_of_dom. apply elem_of_list_to_set. by apply Hd.
Qed.

Lemma mapM_Some_map {A B} (f : A -> option B) (g : A -> B) (l : list A) :
  (forall x, x ∈ l -> f x = Some (g x)) -> mapM f l = Some (map g l).
Proof.
  induction l as [|x l IH]; intros Hf; simpl; [done|].
  rewrite Hf by set_solver. simpl. rewrite IH by set_solver. done.
Qed.

(** The record written for the appended row. *)
Lemma dictwriter_row_to_write (ts : string) (cs : list string)
    (pm : gmap string string) :
  "timestamp" ∉ cs ->
  dictwriter_row ("timestamp" :: cs) (row_to_write ts cs pm) =
  Some (ts :: map (fun c => default "" (pm !! c)) cs).
Proof.
  intros Hts. rewrite dictwriter_row_Some.
  - simpl. rewrite row_to_write_lookup.
    rewrite bool_decide_eq_false_2 by done. simpl. f_equal. f_equal.
    apply map_ext_in. intros c Hc%list_elem_of_In.
    rewrite row_to_write_lookup, bool_decide_eq_true_2 by done. done.
  - intros k Hk. rewrite row_to_write_lookup in Hk.
    case_bool_decide; [set_solver|]. case_bool_decide; [set_solver|].
    by destruct Hk.
Qed.

(** A re-projected row is always written: its keys are the header. *)
Lemma dictwriter_reproject (U : list string) (d : gmap string cell) :
  dictwriter_row U (reproject U d) =
  Some (map (fun h => render (default (Some "") (d !! h))) U).
Proof.
  rewrite dictwriter_row_Some.
  - f_equal. apply map_ext_in. intros h Hh%list_elem_of_In.
    rewrite reproject_lookup, bool_decide_eq_true_2 by done. done.
  - intros k Hk. rewrite reproject_lookup in Hk. case_bool_decide; [done|].
    by destruct Hk.
Qed.

(* ------------------------------------------------------------------ *)
(** ** Header merging *)

Lemma elem_of_old_cols_of (c : string) (h : list string) :
  c ∈ old_cols_of h <-> c ∈ h /\ c <> "" /\ c <> "timestamp".
Proof.
  unfold old_cols_of. rewrite !list_elem_of_In, filter_In, andb_true_iff,
    !negb_true_iff, !String.eqb_neq. tauto.
Qed.

Lemma elem_of_new_cols_of (c : string) (oc syms : list string) :
  c ∈ new_cols_of oc syms <-> c ∈ syms /\ c ∉ oc.
Proof.
  unfold new_cols_of. rewrite list_elem_of_In, filter_In, negb_true_iff,
    bool_decide_eq_false, <- list_elem_of_In. tauto.
Qed.

Lemma timestamp_not_in_union_tail (h symbols : list string) :
  "timestamp" ∉ old_cols_of h ++ new_cols_of (old_cols_of h) (normalize_symbols symbols).
Proof.
  rewrite elem_of_app, elem_of_old_cols_of, elem_of_new_cols_of.
  pose proof (timestamp_not_in_normalize_symbols symbols). tauto.
Qed.

Lemma normalize_symbols_in_union_tail (h symbols : list string) (s : string) :
  s ∈ normalize_symbols symbols ->
  s ∈ old_cols_of h ++ new_cols_of (old_cols_of h) (normalize_symbols symbols).
Proof.
  rewrite elem_of_app, elem_of_new_cols_of.
  destruct (decide (s ∈ old_cols_of h)); tauto.
Qed.

(* ------------------------------------------------------------------ *)
(** ** Shape of the file after a call *)

(** Whatever the file before the call, the call succeeds; the file after it
    starts with a header ["timestamp" :: cs], where [cs] contains every
    requested symbol and not the timestamp column, and ends with the
    appended row, whose cell for a column [c] is [price_map.get(c, "")]. *)
Lemma reconcile_shape (f : csv_file) (ts : string) (symbols : list string)
    (pm : gmap string string) :
  exists cs body,
    ensure_header_and_append_row f ts symbols pm =
      Some (("timestamp" :: cs) :: (body ++
            [ts :: map (fun c => default "" (pm !! c)) cs])) /\
    ("timestamp" ∉ cs) /\
    (forall s, s ∈ normalize_symbols symbols -> s ∈ cs).
Proof.
  pose proof (timestamp_not_in_normalize_symbols symbols) as Hts.
  assert (Hcreate :
    (row ← dictwriter_row ("timestamp" :: normalize_symbols symbols)
             (first_row ts (normalize_symbols symbols) pm);
     Some [("timestamp" :: normalize_symbols symbols); row]) =
    Some (("timestamp" :: normalize_symbols symbols) :: ([] ++
          [ts :: map (fun c => default "" (pm !! c)) (normalize_symbols symbols)]))).
  { rewrite first_row_row_to_write, dictwriter_row_to_write by done. done. }
  unfold ensure_header_and_append_row.
  destruct f as [recs|]; [|eexists _, []; split; [exact Hcreate|done]].
  destruct recs as [|h rest]; simpl;
    [eexists _, []; split; [exact Hcreate|done]|].
  destruct h as [|c h']; [eexists _, []; split; [exact Hcreate|done]|].
  pose proof (timestamp_not_in_union_tail (c :: h') symbols) as Hu.
  pose proof (normalize_symbols_in_union_tail (c :: h') symbols) as Hin.
  unfold union_header_of.
  set (cs := old_cols_of (c :: h') ++
             new_cols_of (old_cols_of (c :: h')) (normalize_symbols symbols)) in *.
  simpl. rewrite dictwriter_row_to_write by done.
  case_bool_decide as Heq.
  - exists cs, rest. simpl. rewrite Heq. done.
  - rewrite mapM_Some_map with
      (g := fun d => map (fun h => render (default (Some "") (d !! h)))
                         ("timestamp" :: cs))
      by (intros x (d & <- & _)%list_elem_of_In%in_map_iff;
          rewrite dictwriter_reproject; f_equal; apply map_ext_in;
          intros k Hk%list_elem_of_In;
          by rewrite reproject_lookup, bool_decide_eq_true_2).
    eexists cs, _. simpl. done.
Qed.

(* ------------------------------------------------------------------ *)
(** ** Reading rows back: [DictReader] followed by re-projection *)

Lemma zip_insert_lookup_notin (d : gmap string cell) (ks vs : list string)
    (k : string) :
  k ∉ ks -> zip_insert d ks vs !! k = d !! k.
Proof.
  revert d vs. induction ks as [|k' ks IH]; intros d vs Hk; [done|].
  destruct vs as [|v vs]; [done|]. simpl.
  rewrite IH by set_solver. rewrite lookup_insert_ne; [done|]. set_solver.
Qed.

Lemma zip_insert_map (d : gmap string cell) (ks vs : list string) :
  NoDup ks -> length ks = length vs ->
  map (fun k => zip_insert d ks vs !! k) ks = map (fun v => Some (Some v)) vs.
Proof.
  revert d vs. induction ks as [|k ks IH]; intros d vs Hnd Hlen.
  - by destruct vs.
  - destruct vs as [|v vs]; [done|]. apply NoDup_cons in Hnd as [Hk Hnd].
    simpl in *. rewrite zip_insert_lookup_notin, lookup_insert_eq by done.
    f_equal. apply IH; [done|lia].
Qed.

Lemma reread_same_header (H : list string) (r : record) :
  NoDup H -> length r = length H -> reread H H r = r.
Proof.
  intros Hnd Hlen. unfold reread, dictreader_row.
  rewrite (proj2 (Nat.leb_le _ _)) by lia.
  rewrite <- (map_map (fun h => zip_insert ∅ H r !! h)
                      (fun o => render (default (Some "") o))).
  rewrite zip_insert_map by (done || lia).
  rewrite map_map. simpl. apply map_id.
Qed.

Lemma reread_extend (H new : list string) (r : record) :
  NoDup H -> length r = length H -> (forall c, c ∈ new -> c ∉ H) ->
  reread H (H ++ new) r = r ++ replicate (length new) "".
Proof.
  intros Hnd Hlen Hdis. unfold reread. rewrite map_app. fold (reread H H r).
  rewrite reread_same_header by done. f_equal.
  unfold dictreader_row. rewrite (proj2 (Nat.leb_le _ _)) by lia.
  induction new as [|c new IH]; [done|]. simpl.
  rewrite zip_insert_lookup_notin by (apply Hdis; set_solver).
  rewrite lookup_empty. simpl. f_equal. apply IH. intros c' Hc'. apply Hdis. set_solver.
Qed.

(** The rewrite of the data records (lines 170-180): each non-blank record
    [r] becomes [reread H U r]. *)
Lemma rewrite_rows (H U : list string) (rows : list record) :
  mapM (dictwriter_row U) (map (reproject U) (dictreader_rows H rows)) =
  Some (map (reread H U) (List.filter (fun r => negb (bool_decide (r = []))) rows)).
Proof.
  unfold dictreader_rows.
  rewrite mapM_Some_map with
    (g := fun d => map (fun k => render (default (Some "") (d !! k))) U).
  - f_equal. rewrite !map_map. apply map_ext. intros r. unfold reread.
    apply map_ext_in. intros k Hk%list_elem_of_In.
    by rewrite reproject_lookup, bool_decide_eq_true_2.
  - intros x (d & <- & _)%list_elem_of_In%in_map_iff.
    rewrite dictwriter_reproject. f_equal. apply map_ext_in.
    intros k Hk%list_elem_of_In. by rewrite reproject_lookup, bool_decide_eq_true_2.
Qed.

Lemma filter_nonblank_id (rows : list record) :
  (forall r, r ∈ rows -> r <> []) ->
  List.filter (fun r => negb (bool_decide (r = []))) rows = rows.
Proof.
  induction rows as [|r rows IH]; intros Hne; [done|]. simpl.
  rewrite bool_decide_eq_false_2 by (apply Hne; set_solver). simpl.
  f_equal. apply IH. intros r' Hr'. apply Hne. set_solver.
Qed.

Lemma old_cols_of_wf (cols : list string) :
  "" ∉ cols -> "timestamp" ∉ cols -> old_cols_of ("timestamp" :: cols) = cols.
Proof.
  intros He Ht. unfold old_cols_of. simpl.
  induction cols as [|c cols IH]; [done|]. simpl.
  rewrite (proj2 (String.eqb_neq c "")) by set_solver.
  rewrite (proj2 (String.eqb_neq c "timestamp")) by set_solver. simpl.
  f_equal. apply IH; set_solver.
Qed.

Lemma blank_false_iff (x : string) : blank x = false <-> strip x <> "".
Proof.
  unfold blank. rewrite orb_false_iff, !String.eqb_neq.
  split; [tauto|]. intros H. split; [|done]. intros ->. by apply H.
Qed.

(** Create the file (cases 1 and 2, lines 140-161). *)
Lemma create_branch (ts : string) (syms : list string) (pm : gmap string string) :
  "timestamp" ∉ syms ->
  (row ← dictwriter_row ("timestamp" :: syms) (first_row ts syms pm);
   Some [("timestamp" :: syms); row]) =
  Some [("timestamp" :: syms); ts :: map (fun c => default "" (pm !! c)) syms].
Proof. intros Hts. by rewrite first_row_row_to_write, dictwriter_row_to_write. Qed.

Lemma lookup_map {A B} (g : A -> B) (l : list A) (i : nat) :
  map g l !! i = g <$> l !! i.
Proof. revert i. induction l as [|x l IH]; intros [|i]; simpl; auto. Qed.

(* ------------------------------------------------------------------ *)
(** ** A call on an existing ledger with a well-formed header *)

Lemma reconcile_existing (cols : list string) (rows : list record) (ts : string)
    (symbols : list string) (pm : gmap string string) :
  "" ∉ cols -> "timestamp" ∉ cols ->
  let new := new_cols_of cols (normalize_symbols symbols) in
  ensure_header_and_append_row (Some (("timestamp" :: cols) :: rows)) ts symbols pm =
  Some (("timestamp" :: cols ++ new) ::
        ((if bool_decide (new = []) then rows
          else map (reread ("timestamp" :: cols) ("timestamp" :: cols ++ new))
                   (List.filter (fun r => negb (bool_decide (r = []))) rows)) ++
         [ts :: map (fun c => default "" (pm !! c)) (cols ++ new)])).
Proof.
  intros He Ht new.
  pose proof (timestamp_not_in_union_tail ("timestamp" :: cols) symbols) as Hts.
  rewrite old_cols_of_wf in Hts by done.
  unfold ensure_header_and_append_row, first_record. cbn beta iota zeta.
  unfold union_header_of. rewrite old_cols_of_wf by done. fold new in Hts |- *.
  assert (Hiff : "timestamp" :: cols ++ new = "timestamp" :: cols <-> new = []).
  { split; [|intros ->; by rewrite app_nil_r].
    intros Heq. injection Heq as Heq. apply (f_equal length) in Heq.
    rewrite length_app in Heq. destruct new; [done|simpl in Heq; lia]. }
  destruct (decide (new = [])) as [Hn|Hn].
  - rewrite !bool_decide_eq_true_2 by (first [done | by apply Hiff]).
    simpl. rewrite dictwriter_row_to_write by done. simpl. by rewrite Hn, app_nil_r.
  - rewrite !bool_decide_eq_false_2 by (first [done | by rewrite Hiff]).
    rewrite rewrite_rows. simpl. rewrite dictwriter_row_to_write by done. done.
Qed.

Lemma new_cols_props (cols symbols : list string) (c : string) :
  c ∈ new_cols_of cols (normalize_symbols symbols) ->
  (c ∉ cols) /\ c <> "" /\ c <> "timestamp".
Proof.
  intros [Hc Hn]%elem_of_new_cols_of. split; [done|]. split.
  - intros ->. apply normalize_symbols_canonical in Hc as [_ Hb]. done.
  - intros ->. by apply (timestamp_not_in_normalize_symbols symbols).
Qed.

Lemma NoDup_new_cols (cols symbols : list string) :
  NoDup (new_cols_of cols (normalize_symbols symbols)).
Proof.
  unfold new_cols_of. apply NoDup_ListNoDup, List.NoDup_filter, NoDup_ListNoDup.
  apply NoDup_normalize_symbols.
Qed.

Lemma wf_ledger_create (ts : string) (symbols : list string)
    (pm : gmap string string) (out : list record) :
  ensure_header_and_append_row None ts symbols pm = Some out -> wf_ledger out.
Proof.
  pose proof (timestamp_not_in_normalize_symbols symbols) as Hts.
  unfold ensure_header_and_append_row. cbn beta iota zeta.
  rewrite create_branch by done. intros [= <-].
  eexists _, _. split; [reflexivity|].
  split; [apply NoDup_normalize_symbols|]. split; [|split; [done|]].
  - intros Hin. apply normalize_symbols_canonical in Hin as [_ Hb]. done.
  - intros r ->%list_elem_of_singleton. simpl. by rewrite length_map.
Qed.

Lemma wf_ledger_update (recs : list record) (ts : string) (symbols : list string)
    (pm : gmap string string) (out : list record) :
  wf_ledger recs ->
  ensure_header_and_append_row (Some recs) ts symbols pm = Some out -> wf_ledger out.
Proof.
  intros (cols & rows & -> & Hnd & He & Ht & Hlen).
  rewrite reconcile_existing by done. intros [= <-].
  set (new := new_cols_of cols (normalize_symbols symbols)).
  pose proof (new_cols_props cols symbols) as Hnew. fold new in Hnew.
  eexists (cols ++ new), _. split; [reflexivity|]. split; [|split; [|split]].
  - apply NoDup_app. split; [done|]. split; [|apply NoDup_new_cols].
    intros c Hc Hc'. by destruct (Hnew c Hc') as [? _].
  - rewrite elem_of_app. intros [|Hn]; [done|]. by destruct (Hnew _ Hn) as (? & ? & ?).
  - rewrite elem_of_app. intros [|Hn]; [done|]. by destruct (Hnew _ Hn) as (? & ? & ?).
  - intros r [Hr|Hr%list_elem_of_singleton]%elem_of_app.
    2: { subst r. simpl. by rewrite length_map. }
    case_bool_decide as H0.
    + rewrite H0, app_nil_r. by apply Hlen.
    + apply list_elem_of_In, in_map_iff in Hr as (r0 & <- & Hr0).
      apply filter_In in Hr0 as [Hr0 _]. apply list_elem_of_In in Hr0.
      change ("timestamp" :: cols ++ new) with (("timestamp" :: cols) ++ new).
      rewrite reread_extend.
      * rewrite length_app, length_replicate, Hlen by done. simpl.
        rewrite length_app. lia.
      * by constructor.
      * by apply Hlen.
      * intros c Hc. rewrite elem_of_cons. destruct (Hnew c Hc) as (? & ? & ?). tauto.
Qed.

Lemma produced_wf (out : list record) : produced out -> wf_ledger out.
Proof.
  induction 1 as [ts symbols pm out Hout|recs ts symbols pm out _ IH Hout].
  - by eapply wf_ledger_create.
  - by eapply wf_ledger_update.
Qed.

(* ------------------------------------------------------------------ *)
(** ** The loop of [get_prices] *)

Section Collect.
Variable fs : string -> result spec_float.
Variables (R : json) (convert : string).

Lemma fold_collect_err (syms : list string) (e : exn) :
  fold_left (collect_step fs R convert) syms (Err e) = Err e.
Proof. induction syms as [|s syms IH]; simpl; auto. Qed.

(** Every entry of the map comes from the initial map or is the [float] of
    the quote price of a symbol of the loop. *)
Lemma collect_sound (syms : list string) (out0 out : gmap string spec_float) :
  fold_left (collect_step fs R convert) syms (Ok out0) = Ok out ->
  forall k f, out !! k = Some f ->
    out0 !! k = Some f \/
    (k ∈ syms /\ exists price, quote_price R k convert = Ok (Some price) /\
                               py_float fs price = Ok f).
Proof.
  revert out0. induction syms as [|s syms IH]; intros out0 Hfold k f Hk; simpl in Hfold.
  - injection Hfold as ->. by left.
  - destruct (quote_price R s convert) as [[price|]|e] eqn:Hq;
      [|destruct (IH _ Hfold k f Hk) as [|(? & ?)]; [by left|right; split; [set_solver|done]]
       |by rewrite fold_collect_err in Hfold].
    destruct (py_float fs price) as [f'|[]] eqn:Hf;
      try (by rewrite fold_collect_err in Hfold);
      try (destruct (IH _ Hfold k f Hk) as [|(? & ?)];
           [by left|right; split; [set_solver|done]]).
    destruct (IH _ Hfold k f Hk) as [Hk0|(? & ?)]; [|right; split; [set_solver|done]].
    destruct (decide (k = s)) as [->|Hne].
    + rewrite lookup_insert_eq in Hk0. injection Hk0 as <-. right.
      split; [set_solver|]. eauto.
    + rewrite lookup_insert_ne in Hk0 by done. by left.
Qed.

(** One iteration from [Ok out0] that does not raise. *)
Lemma collect_step_one (s : string) (out0 : gmap string spec_float) (p : option json) :
  out0 !! s = None ->
  quote_price R s convert = Ok p ->
  (forall price e, p = Some price -> py_float fs price = Err e ->
                   e = TypeError \/ e = ValueError) ->
  exists out1, collect_step fs R convert (Ok out0) s = Ok out1 /\
    forall k f, out1 !! k = Some f <->
      (k <> s /\ out0 !! k = Some f) \/
      (k = s /\ exists price, quote_price R k convert = Ok (Some price) /\
                              py_float fs price = Ok f).
Proof.
  intros Hs Hq Hp. unfold collect_step. rewrite Hq.
  destruct p as [price|].
  - destruct (py_float fs price) as [f'|e] eqn:Hf.
    + eexists. split; [reflexivity|]. intros k f.
      destruct (decide (k = s)) as [->|Hne].
      * rewrite lookup_insert_eq, Hq. split.
        -- intros [= <-]. right. eauto.
        -- intros [[? _]|[_ (price' & [= <-] & Hf')]]; [done|]. congruence.
      * rewrite lookup_insert_ne by done. naive_solver.
    + destruct (Hp price e eq_refl Hf) as [->| ->].
      all: eexists; split; [reflexivity|]; intros k f.
      all: destruct (decide (k = s)) as [->|Hne]; [|naive_solver].
      all: rewrite Hq, Hs; split; [done|].
      all: intros [[? _]|[_ (price' & [= <-] & Hf')]]; [done|congruence].
  - eexists. split; [reflexivity|]. intros k f.
    destruct (decide (k = s)) as [->|Hne]; [|naive_solver].
    rewrite Hq, Hs. split; [done|]. intros [[? _]|[_ (price' & ? & _)]]; done.
Qed.

(** When no symbol of the loop raises, the loop returns the map that has,
    for each symbol whose quote price converts, that float, and keeps the
    initial map elsewhere. *)
Lemma collect_complete (syms : list string) (out0 : gmap string spec_float) :
  NoDup syms ->
  (forall k, k ∈ syms -> out0 !! k = None) ->
  (forall s, s ∈ syms -> exists p, quote_price R s convert = Ok p /\
     forall price e, p = Some price -> py_float fs price = Err e ->
                     e = TypeError \/ e = ValueError) ->
  exists out, fold_left (collect_step fs R convert) syms (Ok out0) = Ok out /\
    forall k f, out !! k = Some f <->
      ((k ∉ syms) /\ out0 !! k = Some f) \/
      (k ∈ syms /\ exists price, quote_price R k convert = Ok (Some price) /\
                                 py_float fs price = Ok f).
Proof.
  revert out0. induction syms as [|s syms IH]; intros out0 Hnd H0 Hgood.
  - exists out0. split; [done|]. intros k f. set_solver.
  - apply NoDup_cons in Hnd as [Hs Hnd].
    destruct (Hgood s) as (p & Hq & Hp); [set_solver|].
    assert (Hgood' : forall s', s' ∈ syms -> exists p, quote_price R s' convert = Ok p /\
              forall price e, p = Some price -> py_float fs price = Err e ->
                              e = TypeError \/ e = ValueError)
      by (intros s' Hs'; apply Hgood; set_solver).
    destruct (collect_step_one s out0 p ltac:(apply H0; set_solver) Hq Hp)
      as (out1 & Hstep & Hout1).
    assert (H1 : forall k, k ∈ syms -> out1 !! k = None).
    { intros k Hk. destruct (out1 !! k) as [f|] eqn:Hf; [|done].
      apply Hout1 in Hf as [[_ Hf]|[-> _]]; [|done].
      by rewrite H0 in Hf by set_solver. }
    destruct (IH out1 Hnd H1 Hgood') as (out & Hout & Hiff).
    exists out. cbn [fold_left]. rewrite Hstep. split; [done|].
    intros k f. rewrite Hiff, Hout1, elem_of_cons.
    destruct (decide (k = s)) as [->|Hne]; [naive_solver|].
    destruct (decide (k ∈ syms)); naive_solver.
Qed.

End Collect.

(* ------------------------------------------------------------------ *)
(** ** More on the normaliser *)

Lemma normalize_symbols_nil_iff_aux (xs : list string) :
  normalize_symbols xs = [] <-> forall x, x ∈ xs -> strip x = "".
Proof.
  split.
  - intros Hn x Hx. destruct (decide (strip x = "")) as [|Hne]; [done|].
    exfalso. assert (Hc : canon x ∈ normalize_symbols xs).
    { apply elem_of_normalize_symbols. unfold canon_list.
      rewrite list_elem_of_In, in_map_iff. exists x. split; [done|].
      apply filter_In. split; [by apply list_elem_of_In|].
      rewrite negb_true_iff. by apply blank_false_iff. }
    rewrite Hn in Hc. set_solver.
  - intros Hall. destruct (normalize_symbols xs) as [|y ys] eqn:Hn; [done|].
    exfalso. assert (Hy : y ∈ normalize_symbols xs) by (rewrite Hn; set_solver).
    apply elem_of_normalize_symbols in Hy. unfold canon_list in Hy.
    rewrite list_elem_of_In, in_map_iff in Hy. destruct Hy as (x & _ & Hx).
    apply filter_In in Hx as [Hx Hb]. rewrite negb_true_iff, blank_false_iff in Hb.
    apply Hb, Hall, list_elem_of_In, Hx.
Qed.

Lemma normalize_step_strip (st : list string * gset string) (x : string) :
  normalize_step st (strip x) = normalize_step st x.
Proof.
  unfold normalize_step. destruct st as [cleaned seen]. rewrite strip_idem.
  assert (Hb : (String.eqb (strip x) "" || String.eqb (strip x) "") =
               (String.eqb x "" || String.eqb (strip x) "")).
  { destruct (String.eqb_spec x "") as [->|]; [reflexivity|].
    by destruct (String.eqb (strip x) ""). }
  by rewrite Hb.
Qed.

Lemma normalize_step_canon (st : list string * gset string) (x : string) :
  normalize_step st (canon x) = normalize_step st x.
Proof.
  unfold normalize_step. destruct st as [cleaned seen].
  fold (blank (canon x)). fold (blank x). fold (canon (canon x)). fold (canon x).
  rewrite canon_idem. destruct (blank x) eqn:Hb.
  - assert (Hs : strip x = "").
    { destruct (decide (strip x = "")) as [|Hne]; [done|].
      by apply blank_false_iff in Hne; rewrite Hne in Hb. }
    assert (Hc : canon x = "") by (unfold canon; by rewrite Hs).
    by rewrite Hc.
  - by rewrite blank_canon.
Qed.

Lemma fold_normalize_step_map (g : string -> string) (xs : list string)
    (st : list string * gset string) :
  (forall st x, normalize_step st (g x) = normalize_step st x) ->
  fold_left normalize_step (map g xs) st = fold_left normalize_step xs st.
Proof.
  intros Hg. revert st. induction xs as [|x xs IH]; intros st; simpl; [done|].
  by rewrite Hg, IH.
Qed.

Lemma normalize_symbols_map_strip (xs : list string) :
  normalize_symbols (map strip xs) = normalize_symbols xs.
Proof.
  unfold normalize_symbols. by rewrite fold_normalize_step_map by apply normalize_step_strip.
Qed.

Lemma normalize_symbols_map_canon (xs : list string) :
  normalize_symbols (map canon xs) = normalize_symbols xs.
Proof.
  unfold normalize_symbols. by rewrite fold_normalize_step_map by apply normalize_step_canon.
Qed.

(* ------------------------------------------------------------------ *)
(** ** [str.split(",")] and [",".join] *)

Lemma is_space_comma : is_space "," = false.
Proof. reflexivity. Qed.

Lemma lstrip_head (s : string) :
  lstrip s = "" \/ exists c t, lstrip s = String c t /\ is_space c = false.
Proof.
  induction s as [|c s IH]; simpl; [by left|].
  destruct (is_space c) eqn:Hc; [done|]. right. eauto.
Qed.

Lemma strip_empty_lstrip (s : string) : strip s = "" -> lstrip s = "".
Proof.
  unfold strip. destruct (lstrip_head s) as [->|(c & t & -> & Hc)]; [done|].
  simpl. rewrite Hc, andb_false_r. discriminate.
Qed.

Lemma split_comma_spaces (s : string) : lstrip s = "" -> split_comma s = [s].
Proof.
  induction s as [|c s IH]; simpl; [done|]. intros H.
  destruct (is_space c) eqn:Hc; [|discriminate].
  rewrite IH by done.
  destruct (Ascii.eqb_spec c ",") as [->|]; [by rewrite is_space_comma in Hc|done].
Qed.

Lemma split_comma_cons (t : string) : exists p ps, split_comma t = p :: ps.
Proof.
  induction t as [|c t (p & ps & IH)]; simpl; [eauto|].
  rewrite IH. destruct (Ascii.eqb c ","); eauto.
Qed.

Lemma split_comma_prefix (a t : string) (p : string) (ps : list string) :
  no_comma a = true -> split_comma t = p :: ps ->
  split_comma (a ++ t)%string = (a ++ p)%string :: ps.
Proof.
  intros Ha Ht. induction a as [|c a IH]; simpl; [done|].
  simpl in Ha. apply andb_true_iff in Ha as [Hc Ha].
  rewrite IH by done. apply negb_true_iff in Hc. by rewrite Hc.
Qed.

Lemma string_append_empty_r (a : string) : (a ++ "")%string = a.
Proof.
  induction a as [|c a IH]; [done|].
  change (String c (a ++ "")%string = String c a). by rewrite IH.
Qed.

(** Splitting the comma-join of comma-free strings gives them back. *)
Lemma split_comma_concat (l : list string) :
  l <> [] -> Forall (fun x => no_comma x = true) l ->
  split_comma (String.concat "," l) = l.
Proof.
  induction l as [|x l IH]; intros Hne Hl; [done|].
  apply Forall_cons in Hl as [Hx Hl].
  destruct l as [|y l].
  - pose proof (split_comma_prefix x "" "" [] Hx eq_refl) as H.
    rewrite string_append_empty_r in H. exact H.
  - change (String.concat "," (x :: y :: l))
      with (x ++ String "," (String.concat "," (y :: l)))%string.
    assert (Ht : split_comma (String "," (String.concat "," (y :: l))) = "" :: y :: l).
    { simpl. f_equal. by apply IH. }
    pose proof (split_comma_prefix x _ "" (y :: l) Hx Ht) as H.
    rewrite string_append_empty_r in H. exact H.
Qed.

Lemma split_comma_no_comma (s p : string) :
  p ∈ split_comma s -> no_comma p = true.
Proof.
  revert p. induction s as [|c s IH]; intros p Hp; simpl in Hp.
  - apply list_elem_of_singleton in Hp as ->. done.
  - destruct (Ascii.eqb c ",") eqn:Hc.
    + apply elem_of_cons in Hp as [->|Hp]; [done|]. by apply IH.
    + destruct (split_comma s) as [|q qs] eqn:Hs.
      * apply list_elem_of_singleton in Hp as ->. simpl. by rewrite Hc.
      * apply elem_of_cons in Hp as [->|Hp].
        -- simpl. rewrite Hc. apply IH. set_solver.
        -- apply IH. set_solver.
Qed.

Lemma no_comma_lstrip (s : string) : no_comma s = true -> no_comma (lstrip s) = true.
Proof.
  induction s as [|c s IH]; simpl; [done|]. intros H.
  destruct (is_space c); [|done]. apply IH. by apply andb_true_iff in H as [_ H].
Qed.

Lemma no_comma_rstrip (s : string) : no_comma s = true -> no_comma (rstrip s) = true.
Proof.
  induction s as [|c s IH]; simpl; [done|]. intros H.
  apply andb_true_iff in H as [Hc H].
  destruct (String.eqb (rstrip s) "" && is_space c); [done|].
  simpl. rewrite Hc. by apply IH.
Qed.

Lemma upper_char_comma (c : ascii) : Ascii.eqb (upper_char c) "," = Ascii.eqb c ",".
Proof. destruct c as [[] [] [] [] [] [] [] []]; reflexivity. Qed.

Lemma no_comma_upper (s : string) : no_comma (upper s) = no_comma s.
Proof. induction s as [|c s IH]; simpl; [done|]. by rewrite upper_char_comma, IH. Qed.

Lemma no_comma_canon (s : string) : no_comma s = true -> no_comma (canon s) = true.
Proof.
  intros H. unfold canon, strip. rewrite no_comma_upper.
  by apply no_comma_rstrip, no_comma_lstrip.
Qed.

(** The normalised pieces of a [SYMBOLS] value contain no comma. *)
Lemma normalize_split_no_comma (env : string) (y : string) :
  y ∈ normalize_symbols (split_comma env) -> no_comma y = true.
Proof.
  intros Hy. apply elem_of_normalize_symbols in Hy. unfold canon_list in Hy.
  rewrite list_elem_of_In, in_map_iff in Hy. destruct Hy as (x & <- & Hx).
  apply filter_In in Hx as [Hx _]. apply no_comma_canon.
  apply (split_comma_no_comma env). by apply list_elem_of_In.
Qed.

(* ------------------------------------------------------------------ *)
(** ** [parse_symbols_from_env] *)

Lemma parse_symbols_from_env_eq (symbols_env : string) (default : list string) :
  parse_symbols_from_env symbols_env default =
  match normalize_symbols (split_comma symbols_env) with
  | [] => default
  | symbols => symbols
  end.
Proof.
  unfold parse_symbols_from_env.
  destruct (String.eqb_spec (strip symbols_env) "") as [Hs|Hs]; simpl.
  - rewrite split_comma_spaces by by apply strip_empty_lstrip.
    assert (Hn : normalize_symbols [symbols_env] = [])
      by (apply normalize_symbols_nil_iff_aux; set_solver).
    by rewrite Hn.
  - by rewrite normalize_symbols_map_strip.
Qed.

Lemma default_symbols_normalized :
  normalize_symbols default_symbols = default_symbols.
Proof. vm_compute. reflexivity. Qed.

(** The symbols of [main]: a non-empty normalised list of comma-free
    symbols. *)
Lemma main_symbols_props (e : env) :
  main_symbols e <> [] /\
  normalize_symbols (main_symbols e) = main_symbols e /\
  Forall (fun x => no_comma x = true) (main_symbols e).
Proof.
  unfold main_symbols. rewrite parse_symbols_from_env_eq.
  destruct (normalize_symbols (split_comma (getenv (env_symbols e) ""))) as [|y ys] eqn:Hn.
  - split; [discriminate|]. split; [apply default_symbols_normalized|].
    vm_compute. repeat constructor.
  - rewrite <- Hn. split; [by rewrite Hn|]. split.
    + apply normalize_symbols_canonical_id; [apply NoDup_normalize_symbols|].
      apply normalize_symbols_canonical.
    + apply Forall_forall. intros x Hx.
      by eapply normalize_split_no_comma.
Qed.

(* ------------------------------------------------------------------ *)
(** ** More on [get_prices] and the reconciler *)

Lemma get_prices_dom (fs : string -> result spec_float) (key : option string)
    (resp : http_outcome) (symbols : list string) (convert : string)
    (out : gmap string spec_float) :
  get_prices fs key resp symbols convert = Ok out ->
  forall s f, out !! s = Some f -> s ∈ normalize_symbols symbols.
Proof.
  intros H s f Hs. unfold get_prices in H. cbv zeta in H.
  destruct key as [[|c k]|]; try discriminate.
  destruct (normalize_symbols symbols) as [|s0 l] eqn:Hn; [discriminate|].
  destruct resp as [|code [data|]]; try discriminate.
  - destruct (Z.eqb code 200); [|discriminate]. cbn [negb] in H.
    destruct (py_get data "status" (JObj [])) as [status|]; [|discriminate].
    destruct (py_get (or_empty status) "error_code" (JInt 0)) as [ec|]; [|discriminate].
    destruct (ne_zero ec); [discriminate|].
    destruct (py_get data "data" (JObj [])) as [returned|]; [|discriminate].
    destruct (collect_sound fs (or_empty returned) convert _ _ _ H s f Hs)
      as [He|[Hin _]]; [by rewrite lookup_empty in He|done].
  - destruct (negb (Z.eqb code 200)); discriminate.
Qed.

Lemma fold_collect_empty (fs : string -> result spec_float) (convert : string)
    (syms : list string) (out0 : gmap string spec_float) :
  fold_left (collect_step fs (JObj []) convert) syms (Ok out0) = Ok out0.
Proof. induction syms as [|s syms IH]; simpl; [done|]. exact IH. Qed.

Lemma obj_get_Some_nonempty (kvs : list (string * json)) (k : string) (v : json) :
  obj_get kvs k = Some v -> kvs <> [].
Proof. by intros H ->. Qed.

(** [reconcile_shape], with the columns also free of the empty name. *)
Lemma reconcile_shape_cols (f : csv_file) (ts : string) (symbols : list string)
    (pm : gmap string string) :
  exists cs body,
    ensure_header_and_append_row f ts symbols pm =
      Some (("timestamp" :: cs) :: (body ++
            [ts :: map (fun c => default "" (pm !! c)) cs])) /\
    ("timestamp" ∉ cs) /\ ("" ∉ cs) /\
    (forall s, s ∈ normalize_symbols symbols -> s ∈ cs).
Proof.
  pose proof (timestamp_not_in_normalize_symbols symbols) as Hts.
  assert (He : "" ∉ normalize_symbols symbols).
  { intros Hin%normalize_symbols_canonical. by destruct Hin as [_ Hb]. }
  assert (Hcreate :
    (row ← dictwriter_row ("timestamp" :: normalize_symbols symbols)
             (first_row ts (normalize_symbols symbols) pm);
     Some [("timestamp" :: normalize_symbols symbols); row]) =
    Some (("timestamp" :: normalize_symbols symbols) :: ([] ++
          [ts :: map (fun c => default "" (pm !! c)) (normalize_symbols symbols)]))).
  { rewrite first_row_row_to_write, dictwriter_row_to_write by done. done. }
  unfold ensure_header_and_append_row.
  destruct f as [recs|]; [|eexists _, []; split; [exact Hcreate|done]].
  destruct recs as [|h rest]; simpl;
    [eexists _, []; split; [exact Hcreate|done]|].
  destruct h as [|c h']; [eexists _, []; split; [exact Hcreate|done]|].
  pose proof (timestamp_not_in_union_tail (c :: h') symbols) as Hu.
  pose proof (normalize_symbols_in_union_tail (c :: h') symbols) as Hin.
  assert (He' : "" ∉ old_cols_of (c :: h') ++
                  new_cols_of (old_cols_of (c :: h')) (normalize_symbols symbols)).
  { rewrite elem_of_app, elem_of_old_cols_of.
    intros [(_ & ? & _)|Hn]; [done|]. by apply new_cols_props in Hn as (_ & ? & _). }
  unfold union_header_of.
  set (cs := old_cols_of (c :: h') ++
             new_cols_of (old_cols_of (c :: h')) (normalize_symbols symbols)) in *.
  simpl. rewrite dictwriter_row_to_write by done.
  case_bool_decide as Heq.
  - exists cs, rest. simpl. rewrite Heq. done.
  - rewrite mapM_Some_map with
      (g := fun d => map (fun h => render (default (Some "") (d !! h)))
                         ("timestamp" :: cs))
      by (intros x (d & <- & _)%list_elem_of_In%in_map_iff;
          rewrite dictwriter_reproject; f_equal; apply map_ext_in;
          intros k Hk%list_elem_of_In;
          by rewrite reproject_lookup, bool_decide_eq_true_2).
    eexists cs, _. simpl. done.
Qed.

(* ================================================================== *)
(** * The claims *)

(** C5: [normalize_symbols] keeps, in the order of their first occurrence,
    the trimmed and upper-cased forms of the non-blank inputs, without
    duplicates; every entry is such a form (so it is trimmed, upper-case and
    non-empty); the empty input gives the empty output, and
    [["btc"; " ETH"; "BTC"]] gives [["BTC"; "ETH"]]. *)
Theorem normalize_symbols_contract (xs : list string) :
  (forall y, y ∈ normalize_symbols xs <->
             exists x, x ∈ xs /\ strip x <> "" /\ y = upper (strip x)) /\
  (forall y, y ∈ normalize_symbols xs -> strip y = y /\ upper y = y /\ y <> "") /\
  NoDup (normalize_symbols xs) /\
  (forall i j a b,
     normalize_symbols xs !! i = Some a -> normalize_symbols xs !! j = Some b ->
     i < j ->
     exists k, canon_list xs !! k = Some a /\
               forall k', k' <= k -> canon_list xs !! k' <> Some b) /\
  normalize_symbols [] = [] /\
  normalize_symbols ["btc"; " ETH"; "BTC"] = ["BTC"; "ETH"].
Proof.
  split; [|split; [|split; [|split; [|split]]]].
  - intros y. rewrite elem_of_normalize_symbols. unfold canon_list.
    rewrite list_elem_of_In, in_map_iff. setoid_rewrite filter_In.
    setoid_rewrite negb_true_iff. setoid_rewrite blank_false_iff.
    setoid_rewrite <- list_elem_of_In. unfold canon. split.
    + intros (x & <- & Hx & Hb). eauto.
    + intros (x & Hx & Hb & ->). eauto.
  - intros y Hy. destruct (normalize_symbols_canonical xs y Hy) as [Hc Hb].
    apply blank_false_iff in Hb. unfold canon in Hc.
    split; [|split].
    + rewrite <- Hc at 1. rewrite strip_upper, strip_idem. done.
    + rewrite <- Hc, upper_idem. done.
    + intros ->. by apply Hb.
  - apply NoDup_normalize_symbols.
  - apply normalize_symbols_order.
  - reflexivity.
  - vm_compute. reflexivity.
Qed.

(** C10: [normalize_symbols] is idempotent, so the reconciler, which
    normalises its [symbols] argument first, gives the same result on raw
    and on already normalised symbols. *)
Theorem normalize_symbols_idempotent (xs : list string) :
  normalize_symbols (normalize_symbols xs) = normalize_symbols xs /\
  (forall (f : csv_file) (ts : string) (pm : gmap string string),
     ensure_header_and_append_row f ts (normalize_symbols xs) pm =
     ensure_header_and_append_row f ts xs pm).
Proof.
  assert (Hid : normalize_symbols (normalize_symbols xs) = normalize_symbols xs).
  { apply normalize_symbols_canonical_id; [apply NoDup_normalize_symbols|].
    apply normalize_symbols_canonical. }
  split; [done|]. intros f ts pm. unfold ensure_header_and_append_row.
  by rewrite Hid.
Qed.

(** C3: on an absent file, or a file with no header line (empty, or whose
    first line is blank), the file is (re)written with exactly the header
    [timestamp] followed by the normalised symbols and one row: the
    timestamp, then [price_map[s]] for each symbol [s], or the empty string
    when [s] has no price. *)
Theorem reconcile_fresh_file (f : csv_file) (ts : string) (symbols : list string)
    (pm : gmap string string) :
  f = None \/ f = Some [] \/ (exists rest, f = Some ([] :: rest)) ->
  ensure_header_and_append_row f ts symbols pm =
  Some [("timestamp" :: normalize_symbols symbols);
        ts :: map (fun s => default "" (pm !! s)) (normalize_symbols symbols)].
Proof.
  pose proof (timestamp_not_in_normalize_symbols symbols) as Hts.
  intros [->|[->|[rest ->]]]; unfold ensure_header_and_append_row; simpl;
    by apply create_branch.
Qed.

(** C4: when the merged header equals the existing header (every requested
    symbol is already a column), the existing records are kept as they are
    and one row is appended: the timestamp, then for every other column its
    price, or the empty string when the price map has none. *)
Theorem reconcile_append_only (old_header : list string) (rest : list (list string))
    (ts : string) (symbols : list string) (pm : gmap string string) :
  union_header_of old_header (normalize_symbols symbols) = old_header ->
  ensure_header_and_append_row (Some (old_header :: rest)) ts symbols pm =
  Some ((old_header :: rest) ++
        [ts :: map (fun c => default "" (pm !! c)) (tail old_header)]).
Proof.
  intros Hu. destruct old_header as [|c h']; [discriminate|].
  assert (Hts : "timestamp" ∉ tail (union_header_of (c :: h') (normalize_symbols symbols)))
    by apply timestamp_not_in_union_tail.
  rewrite Hu in Hts. simpl in Hts.
  assert (c = "timestamp") as Hc.
  { unfold union_header_of in Hu. by injection Hu. }
  unfold ensure_header_and_append_row, first_record. cbn beta iota zeta.
  rewrite Hu, bool_decide_eq_true_2 by done. simpl.
  rewrite Hc, dictwriter_row_to_write by done. done.
Qed.

(** C6: the call never fails, and a requested symbol without a price gets
    the empty string in its column of the appended (last) row. *)
Theorem reconcile_missing_price_empty (f : csv_file) (ts : string)
    (symbols : list string) (pm : gmap string string) :
  exists out hdr row,
    ensure_header_and_append_row f ts symbols pm = Some out /\
    head out = Some hdr /\ last out = Some row /\ length row = length hdr /\
    (forall s, s ∈ normalize_symbols symbols -> pm !! s = None ->
       s ∈ hdr /\ forall i, hdr !! i = Some s -> row !! i = Some "").
Proof.
  destruct (reconcile_shape f ts symbols pm) as (cs & body & Hout & Hts & Hin).
  eexists _, _, _. split; [exact Hout|]. split; [done|]. split.
  { rewrite app_comm_cons. apply last_snoc. }
  split; [simpl; by rewrite length_map|].
  intros s Hs Hpm. split; [apply elem_of_cons; right; by apply Hin|].
  intros [|i] Hi; simpl in Hi.
  - injection Hi as <-. by pose proof (timestamp_not_in_normalize_symbols symbols).
  - simpl. rewrite lookup_map, Hi. simpl. by rewrite Hpm.
Qed.

(** C1 (counterexample): a header [timestamp,,BTC] starts with the
    timestamp column, yet after adding [ADA] the header is not
    [timestamp,,BTC,ADA]: the empty-named column is dropped by the filter of
    line 164, and the old row loses its value ["1"] in that column. *)
Lemma reconcile_schema_growth_counterexample :
  ensure_header_and_append_row (Some [["timestamp"; ""; "BTC"]; ["T0"; "1"; "2"]])
    "T1" ["ADA"] ∅ =
  Some [["timestamp"; "BTC"; "ADA"]; ["T0"; "2"; ""]; ["T1"; ""; ""]] /\
  ~ (exists out,
       ensure_header_and_append_row (Some [["timestamp"; ""; "BTC"]; ["T0"; "1"; "2"]])
         "T1" ["ADA"] ∅ = Some out /\
       head out = Some ["timestamp"; ""; "BTC"; "ADA"]).
Proof.
  assert (H : ensure_header_and_append_row
                (Some [["timestamp"; ""; "BTC"]; ["T0"; "1"; "2"]]) "T1" ["ADA"] ∅ =
              Some [["timestamp"; "BTC"; "ADA"]; ["T0"; "2"; ""]; ["T1"; ""; ""]]).
  { vm_compute. reflexivity. }
  split; [exact H|]. intros (out & Hout & Hh). rewrite H in Hout.
  injection Hout as <-. discriminate.
Qed.

(** C1 (amended): on a well-formed ledger (header [timestamp] followed by
    distinct non-empty columns other than [timestamp], each data record
    with one cell per column), a request with at least one new symbol
    rewrites the file with the header [timestamp] ++ old columns ++ new
    columns (the new ones in normalised request order), every old record
    extended with one empty cell per new column, then appends the new row. *)
Theorem reconcile_schema_growth (cols : list string) (rows : list (list string))
    (ts : string) (symbols : list string) (pm : gmap string string) :
  NoDup cols -> "" ∉ cols -> "timestamp" ∉ cols ->
  (forall r, r ∈ rows -> length r = S (length cols)) ->
  new_cols_of cols (normalize_symbols symbols) <> [] ->
  ensure_header_and_append_row (Some (("timestamp" :: cols) :: rows)) ts symbols pm =
  Some (("timestamp" :: cols ++ new_cols_of cols (normalize_symbols symbols)) ::
        (map (fun r => r ++ replicate
                         (length (new_cols_of cols (normalize_symbols symbols))) "")
             rows ++
         [ts :: map (fun c => default "" (pm !! c))
                    (cols ++ new_cols_of cols (normalize_symbols symbols))])).
Proof.
  intros Hnd He Ht Hlen Hne.
  rewrite reconcile_existing by done. rewrite bool_decide_eq_false_2 by done.
  rewrite filter_nonblank_id by (intros r Hr Hr0; specialize (Hlen r Hr);
                                 rewrite Hr0 in Hlen; discriminate).
  do 3 f_equal. apply map_ext_in. intros r Hr%list_elem_of_In.
  pose proof (new_cols_props cols symbols) as Hnew.
  change ("timestamp" :: cols ++ new_cols_of cols (normalize_symbols symbols))
    with (("timestamp" :: cols) ++ new_cols_of cols (normalize_symbols symbols)).
  apply reread_extend.
  - by constructor.
  - by apply Hlen.
  - intros c Hc. rewrite elem_of_cons. destruct (Hnew c Hc) as (? & ? & ?). tauto.
Qed.

(** C2: on a ledger whose header is [timestamp] followed by non-empty
    columns other than [timestamp], a later call keeps the existing header
    as a prefix of the new one (no column is removed or reordered), and
    when the price map has entries only for requested symbols (as the map
    [get_prices] returns, [get_prices_dom]) the appended row has the empty
    string in every existing column whose symbol the request omits. *)
Theorem reconcile_columns_stable (cols : list string) (rows : list (list string))
    (ts : string) (symbols : list string) (pm : gmap string string) :
  "" ∉ cols -> "timestamp" ∉ cols ->
  (forall c v, pm !! c = Some v -> c ∈ normalize_symbols symbols) ->
  exists body row,
    ensure_header_and_append_row (Some (("timestamp" :: cols) :: rows)) ts symbols pm =
    Some ((("timestamp" :: cols) ++ new_cols_of cols (normalize_symbols symbols)) ::
          (body ++ [row])) /\
    row = ts :: map (fun c => default "" (pm !! c))
                    (cols ++ new_cols_of cols (normalize_symbols symbols)) /\
    (forall i c, cols !! i = Some c -> c ∉ normalize_symbols symbols ->
                 row !! S i = Some "").
Proof.
  intros He Ht Hpm. rewrite reconcile_existing by done.
  eexists _, _. split; [reflexivity|]. split; [reflexivity|].
  intros i c Hi Hc. simpl. rewrite lookup_map, lookup_app_l by (by eapply lookup_lt_Some).
  rewrite Hi; simpl. destruct (pm !! c) as [v|] eqn:Hv; [|reflexivity].
  exfalso. exact (Hc (Hpm c v Hv)).
Qed.

(** C8: in every file produced by the reconciler, reading the data records
    back with [DictReader], re-projecting them onto the file's own header
    and writing them with [DictWriter] (what lines 170-180 do) gives back
    exactly the records of the file. *)
Theorem produced_ledger_roundtrip (out : list (list string)) :
  produced out ->
  exists hdr rows,
    out = hdr :: rows /\
    mapM (dictwriter_row hdr) (map (reproject hdr) (dictreader_rows hdr rows)) =
    Some rows.
Proof.
  intros (cols & rows & -> & Hnd & He & Ht & Hlen)%produced_wf.
  eexists _, _. split; [reflexivity|].
  rewrite rewrite_rows, filter_nonblank_id
    by (intros r Hr Hr0; specialize (Hlen r Hr); rewrite Hr0 in Hlen; discriminate).
  f_equal. erewrite map_ext_in; [apply map_id|].
  intros r Hr%list_elem_of_In. apply reread_same_header; [by constructor|].
  by apply Hlen.
Qed.

(* ------------------------------------------------------------------ *)
(** ** Instances of the theorems with hypotheses *)

(** C3 at the spec's example: [BTC, ETH] with only a [BTC] price. *)
Lemma reconcile_fresh_file_witness :
  (@None (list (list string)) = None \/ @None (list (list string)) = Some [] \/
   exists rest, @None (list (list string)) = Some ([] :: rest)) /\
  ensure_header_and_append_row None "T1" ["BTC"; "ETH"] {["BTC" := "50000.0"]} =
  Some [["timestamp"; "BTC"; "ETH"]; ["T1"; "50000.0"; ""]].
Proof.
  split; [left; reflexivity|].
  rewrite (reconcile_fresh_file None "T1" ["BTC"; "ETH"] {["BTC" := "50000.0"]});
    [vm_compute; reflexivity|left; reflexivity].
Defined.

(** C4 on the ledger [timestamp,BTC,ETH] with a request for [eth]. *)
Lemma reconcile_append_only_witness :
  union_header_of ["timestamp"; "BTC"; "ETH"] (normalize_symbols ["eth"]) =
    ["timestamp"; "BTC"; "ETH"] /\
  ensure_header_and_append_row (Some [["timestamp"; "BTC"; "ETH"]; ["T0"; "1"; "2"]])
    "T1" ["eth"] {["ETH" := "3.5"]} =
  Some [["timestamp"; "BTC"; "ETH"]; ["T0"; "1"; "2"]; ["T1"; ""; "3.5"]].
Proof.
  split; [vm_compute; reflexivity|].
  rewrite (reconcile_append_only ["timestamp"; "BTC"; "ETH"] [["T0"; "1"; "2"]]
             "T1" ["eth"] {["ETH" := "3.5"]}); [vm_compute; reflexivity|].
  vm_compute. reflexivity.
Defined.

(** C1 (amended) at the spec's example: [timestamp,BTC,ETH] grows by [ADA]. *)
Lemma reconcile_schema_growth_witness :
  NoDup ["BTC"; "ETH"] /\ ("" ∉ ["BTC"; "ETH"]) /\ ("timestamp" ∉ ["BTC"; "ETH"]) /\
  new_cols_of ["BTC"; "ETH"] (normalize_symbols ["BTC"; "ETH"; "ADA"]) <> [] /\
  ensure_header_and_append_row (Some [["timestamp"; "BTC"; "ETH"]; ["T0"; "1"; "2"]])
    "T1" ["BTC"; "ETH"; "ADA"] {["BTC" := "7"]} =
  Some [["timestamp"; "BTC"; "ETH"; "ADA"]; ["T0"; "1"; "2"; ""]; ["T1"; "7"; ""; ""]].
Proof.
  assert (Hnd : NoDup ["BTC"; "ETH"]) by (apply NoDup_cons; split; [set_solver|apply NoDup_singleton]).
  assert (He : "" ∉ ["BTC"; "ETH"]) by set_solver.
  assert (Ht : "timestamp" ∉ ["BTC"; "ETH"]) by set_solver.
  assert (Hn : new_cols_of ["BTC"; "ETH"] (normalize_symbols ["BTC"; "ETH"; "ADA"]) <> [])
    by (vm_compute; discriminate).
  split; [done|]. split; [done|]. split; [done|]. split; [done|].
  rewrite (reconcile_schema_growth ["BTC"; "ETH"] [["T0"; "1"; "2"]] "T1"
             ["BTC"; "ETH"; "ADA"] {["BTC" := "7"]} Hnd He Ht);
    [vm_compute; reflexivity| |exact Hn].
  intros r ->%list_elem_of_singleton. reflexivity.
Defined.

(** C2 on [timestamp,BTC,ETH] with a request omitting [BTC]. *)
Lemma reconcile_columns_stable_witness :
  ("" ∉ ["BTC"; "ETH"]) /\ ("timestamp" ∉ ["BTC"; "ETH"]) /\
  (forall c v, ({["ETH" := "3"]} : gmap string string) !! c = Some v ->
               c ∈ normalize_symbols ["ETH"; "SOL"]) /\
  exists body row,
    ensure_header_and_append_row (Some [["timestamp"; "BTC"; "ETH"]; ["T0"; "1"; "2"]])
      "T1" ["ETH"; "SOL"] {["ETH" := "3"]} =
    Some ((["timestamp"; "BTC"; "ETH"] ++ ["SOL"]) :: (body ++ [row])) /\
    row = ["T1"; ""; "3"; ""] /\ row !! 1 = Some "".
Proof.
  assert (He : "" ∉ ["BTC"; "ETH"]) by set_solver.
  assert (Ht : "timestamp" ∉ ["BTC"; "ETH"]) by set_solver.
  assert (Hpm : forall c v, ({["ETH" := "3"]} : gmap string string) !! c = Some v ->
                            c ∈ normalize_symbols ["ETH"; "SOL"]).
  { intros c v [<- _]%lookup_singleton_Some.
    assert (Hn : normalize_symbols ["ETH"; "SOL"] = ["ETH"; "SOL"])
      by (vm_compute; reflexivity).
    rewrite Hn. set_solver. }
  split; [done|]. split; [done|]. split; [exact Hpm|].
  destruct (reconcile_columns_stable ["BTC"; "ETH"] [["T0"; "1"; "2"]] "T1"
              ["ETH"; "SOL"] {["ETH" := "3"]} He Ht Hpm) as (body & row & Hout & Hrow & Hom).
  exists body, row. split; [vm_compute in Hout; exact Hout|].
  split; [vm_compute in Hrow; exact Hrow|].
  apply (Hom 0 "BTC"); [reflexivity|].
  assert (Hn : normalize_symbols ["ETH"; "SOL"] = ["ETH"; "SOL"])
    by (vm_compute; reflexivity).
  rewrite Hn. set_solver.
Defined.

(** C8 on a file created for [BTC] and then grown by [ETH]. *)
Lemma produced_ledger_roundtrip_witness :
  produced [["timestamp"; "BTC"; "ETH"]; ["T1"; "5"; ""]; ["T2"; ""; "3"]] /\
  exists hdr rows,
    [["timestamp"; "BTC"; "ETH"]; ["T1"; "5"; ""]; ["T2"; ""; "3"]] = hdr :: rows /\
    mapM (dictwriter_row hdr) (map (reproject hdr) (dictreader_rows hdr rows)) =
    Some rows.
Proof.
  assert (Hp : produced [["timestamp"; "BTC"; "ETH"]; ["T1"; "5"; ""]; ["T2"; ""; "3"]]).
  { apply (produced_update [["timestamp"; "BTC"]; ["T1"; "5"]] "T2" ["ETH"]
             {["ETH" := "3"]}).
    - apply (produced_create "T1" ["btc"] {["BTC" := "5"]}).
      vm_compute. reflexivity.
    - vm_compute. reflexivity. }
  split; [exact Hp|]. exact (produced_ledger_roundtrip _ Hp).
Defined.

(* ------------------------------------------------------------------ *)
(** ** The quote fetcher *)

(** C7 (counterexample): with no API key the fetcher raises, but the
    exception is a [RuntimeError], not a [ConfigError]. *)
Lemma get_prices_config_error_counterexample :
  ~ (exists e, get_prices reject_str None Transport_error ["BTC"] "USD" = Err e /\
               exn_class e = "ConfigError").
Proof.
  intros (e & H & Hc). vm_compute in H. injection H as <-. discriminate.
Qed.

(** C7: [get_prices] raises [RuntimeError] (there are no separate error
    classes) when the API key is unset or empty, when the normalized symbol
    list is empty, on a transport failure, on an HTTP status other than 200,
    and on a non-zero [status.error_code].  When the response has the
    expected shape and no symbol's conversion raises anything but
    [TypeError] or [ValueError], it returns a map whose entries are exactly
    the requested symbols with a convertible quote price: a symbol whose
    entry or price is missing, or whose price [float] rejects, is omitted. *)
Theorem get_prices_errors (fs : string -> result spec_float) (key : option string)
    (resp : http_outcome) (symbols : list string) (convert : string) :
  ((key = None \/ key = Some "") ->
     get_prices fs key resp symbols convert = Err (RuntimeError NoApiKey)) /\
  (forall k, key = Some k -> k <> "" ->
    (normalize_symbols symbols = [] ->
       get_prices fs key resp symbols convert = Err (RuntimeError EmptySymbols)) /\
    (normalize_symbols symbols <> [] ->
      (resp = Transport_error ->
         get_prices fs key resp symbols convert = Err (RuntimeError NetworkFailure)) /\
      (forall code body, resp = Response code body -> code <> 200%Z ->
         get_prices fs key resp symbols convert = Err (RuntimeError (HttpStatus code))) /\
      (forall data status ec, resp = Response 200 (Some data) ->
         py_get data "status" (JObj []) = Ok status ->
         py_get (or_empty status) "error_code" (JInt 0) = Ok ec ->
         ne_zero ec = true ->
         get_prices fs key resp symbols convert = Err (RuntimeError ApiErrorCode)) /\
      (forall data status ec returned, resp = Response 200 (Some data) ->
         py_get data "status" (JObj []) = Ok status ->
         py_get (or_empty status) "error_code" (JInt 0) = Ok ec ->
         ne_zero ec = false ->
         py_get data "data" (JObj []) = Ok returned ->
         (forall s, s ∈ normalize_symbols symbols ->
            exists p, quote_price (or_empty returned) s convert = Ok p /\
              forall price e, p = Some price -> py_float fs price = Err e ->
                              e = TypeError \/ e = ValueError) ->
         exists out, get_prices fs key resp symbols convert = Ok out /\
           forall s f, out !! s = Some f <->
             s ∈ normalize_symbols symbols /\
             exists price, quote_price (or_empty returned) s convert = Ok (Some price) /\
                           py_float fs price = Ok f))).
Proof.
  split.
  { intros [-> | ->]; reflexivity. }
  intros k -> Hk. destruct k as [|c k]; [done|].
  unfold get_prices. cbv zeta.
  split.
  { intros ->. reflexivity. }
  intros Hne. destruct (normalize_symbols symbols) as [|s0 l] eqn:Hn; [done|].
  split; [intros ->; reflexivity|].
  split.
  { intros code body -> Hc. rewrite (proj2 (Z.eqb_neq code 200) Hc). reflexivity. }
  split.
  { intros data status ec -> Hs He Hz. cbn [negb Z.eqb Pos.eqb]. rewrite Hs, He, Hz.
    reflexivity. }
  intros data status ec returned -> Hs He Hz Hd Hgood.
  cbn [negb Z.eqb Pos.eqb]. rewrite Hs, He, Hz, Hd.
  destruct (collect_complete fs (or_empty returned) convert (s0 :: l) ∅)
    as (out & Hout & Hiff).
  - rewrite <- Hn. apply NoDup_normalize_symbols.
  - intros; apply lookup_empty.
  - exact Hgood.
  - exists out. split; [exact Hout|]. intros s f. rewrite Hiff, lookup_empty.
    naive_solver.
Qed.

(** C9 (counterexample): the JSON number [1e400] decodes to an infinite
    float, which [float] accepts and the fetcher returns. *)
Lemma get_prices_finite_counterexample :
  get_prices reject_str (Some "key") (Response 200
      (Some (quote_body "BTC" "USD" (JFloat (S754_infinity false))))) ["BTC"] "USD"
    = Ok {["BTC" := S754_infinity false]} /\
  is_finite (S754_infinity false) = false.
Proof. split; vm_compute; reflexivity. Qed.

(** C9: on success the response was a 200 with a JSON body, and every key
    of the returned map is a normalized requested symbol whose value is
    [float] of that symbol's [quote[convert].price]; nothing makes the
    value finite. *)
Theorem get_prices_keys_values (fs : string -> result spec_float) (key : option string)
    (resp : http_outcome) (symbols : list string) (convert : string)
    (out : gmap string spec_float) :
  get_prices fs key resp symbols convert = Ok out ->
  exists data returned,
    resp = Response 200 (Some data) /\
    py_get data "data" (JObj []) = Ok returned /\
    forall s f, out !! s = Some f ->
      s ∈ normalize_symbols symbols /\
      exists price,
        quote_price (or_empty returned) s convert = Ok (Some price) /\
        py_float fs price = Ok f.
Proof.
  intros H. unfold get_prices in H. cbv zeta in H.
  destruct key as [[|c k]|]; try discriminate.
  destruct (normalize_symbols symbols) as [|s0 l] eqn:Hn; [discriminate|].
  destruct resp as [|code [data|]]; try discriminate.
  - destruct (Z.eqb code 200) eqn:Hc; [|discriminate].
    apply Z.eqb_eq in Hc as ->. cbn [negb] in H.
    destruct (py_get data "status" (JObj [])) as [status|]; [|discriminate].
    destruct (py_get (or_empty status) "error_code" (JInt 0)) as [ec|]; [|discriminate].
    destruct (ne_zero ec); [discriminate|].
    destruct (py_get data "data" (JObj [])) as [returned|] eqn:Hd; [|discriminate].
    exists data, returned. split; [reflexivity|]. split; [exact Hd|].
    intros s f Hs.
    destruct (collect_sound fs (or_empty returned) convert _ _ _ H s f Hs)
      as [He|[Hin (price & Hq & Hf)]].
    + by rewrite lookup_empty in He.
    + split; [done|]. exists price. auto.
  - destruct (negb (Z.eqb code 200)); discriminate.
Qed.

Lemma get_prices_keys_values_witness :
  get_prices reject_str (Some "key") (Response 200
      (Some (quote_body "BTC" "USD" (JFloat (S754_infinity false))))) ["BTC"] "USD"
    = Ok {["BTC" := S754_infinity false]} /\
  exists data returned,
    Response 200 (Some (quote_body "BTC" "USD" (JFloat (S754_infinity false))))
      = Response 200 (Some data) /\
    py_get data "data" (JObj []) = Ok returned /\
    forall s f, ({["BTC" := S754_infinity false]} : gmap string spec_float) !! s = Some f ->
      s ∈ normalize_symbols ["BTC"] /\
      exists price,
        quote_price (or_empty returned) s "USD" = Ok (Some price) /\
        py_float reject_str price = Ok f.
Proof.
  assert (H : get_prices reject_str (Some "key") (Response 200
      (Some (quote_body "BTC" "USD" (JFloat (S754_infinity false))))) ["BTC"] "USD"
    = Ok {["BTC" := S754_infinity false]}) by (vm_compute; reflexivity).
  split; [exact H|].
  exact (get_prices_keys_values reject_str _ _ _ _ _ H).
Defined.

(* ================================================================== *)
(** * Further properties of the code *)

Lemma py_get_obj (kvs : list (string * json)) (k : string) (d : json) :
  py_get (JObj kvs) k d = Ok (match obj_get kvs k with Some x => x | None => d end).
Proof. reflexivity. Qed.

(** [normalize_symbols] on a concatenation: the normalised first part,
    followed by the normalised second part without the symbols already
    present. *)
Theorem normalize_symbols_app (xs ys : list string) :
  normalize_symbols (xs ++ ys) =
  normalize_symbols xs ++
  List.filter (fun y => negb (bool_decide (y ∈ normalize_symbols xs)))
              (normalize_symbols ys).
Proof.
  induction ys as [|y ys IH] using rev_ind.
  - rewrite app_nil_r, normalize_symbols_nil. simpl. by rewrite app_nil_r.
  - rewrite app_assoc, !normalize_symbols_snoc, IH, List.filter_app, <- app_assoc.
    f_equal. f_equal.
    set (N := normalize_symbols xs). set (Nys := normalize_symbols ys).
    destruct (blank y); simpl; [done|].
    assert (Hmem : canon y ∈ N ++ List.filter (fun y => negb (bool_decide (y ∈ N))) Nys
                   <-> canon y ∈ N \/ canon y ∈ Nys).
    { rewrite elem_of_app, (list_elem_of_In (List.filter _ _)), filter_In,
        <- list_elem_of_In, negb_true_iff, bool_decide_eq_false.
      destruct (decide (canon y ∈ N)); tauto. }
    destruct (decide (canon y ∈ N)) as [HN|HN];
      destruct (decide (canon y ∈ Nys)) as [HY|HY].
    + rewrite !bool_decide_eq_true_2 by (done || tauto). done.
    + rewrite bool_decide_eq_true_2 by tauto. rewrite bool_decide_eq_false_2 by done.
      simpl. by rewrite bool_decide_eq_true_2.
    + rewrite !bool_decide_eq_true_2 by (done || tauto). done.
    + rewrite !bool_decide_eq_false_2 by (done || tauto). simpl.
      by rewrite bool_decide_eq_false_2.
Qed.

(** [normalize_symbols] returns the empty list exactly when every input is
    empty or whitespace only (the case in which [get_prices] raises). *)
Theorem normalize_symbols_empty_iff (xs : list string) :
  normalize_symbols xs = [] <-> forall x, x ∈ xs -> strip x = "".
Proof. apply normalize_symbols_nil_iff_aux. Qed.

(** [parse_symbols_from_env]: the normalised comma-separated pieces of
    [SYMBOLS], or the default when they normalise to nothing (unset, blank,
    or only commas and blanks). *)
Theorem parse_symbols_from_env_spec (symbols_env : string) (default : list string) :
  parse_symbols_from_env symbols_env default =
  if bool_decide (normalize_symbols (split_comma symbols_env) = []) then default
  else normalize_symbols (split_comma symbols_env).
Proof.
  rewrite parse_symbols_from_env_eq.
  by destruct (normalize_symbols (split_comma symbols_env)).
Qed.

(** The symbols [main] requests are, whatever [SYMBOLS] holds, a non-empty
    normalised list, and the [symbol] parameter of the request, split on
    commas, gives back exactly that list. *)
Theorem main_symbols_request (e : env) :
  main_symbols e <> [] /\
  normalize_symbols (main_symbols e) = main_symbols e /\
  split_comma (symbol_param (main_symbols e)) = main_symbols e.
Proof.
  destruct (main_symbols_props e) as (Hne & Hn & Hc).
  split; [done|]. split; [done|].
  unfold symbol_param. rewrite Hn. by apply split_comma_concat.
Qed.

(** When [main] returns, the ledger ends with one new row: the timestamp,
    then for each column [repr] of the fetched price, or the empty string
    when there is none; every requested symbol is a column, and a column
    that was not requested never gets a price. *)
Theorem main_success_ledger (fs : string -> result spec_float)
    (repr : spec_float -> string) (e : env) (resp : http_outcome) (ts : string)
    (f f' : csv_file) (u : unit) :
  main fs repr e resp ts f = (Ok u, f') ->
  exists prices cs body,
    get_prices fs (env_cmc_api_key e) resp (main_symbols e) (main_convert e) = Ok prices /\
    f' = Some (("timestamp" :: cs) :: body ++
               [ts :: map (fun c => match prices !! c with
                                    | Some p => repr p
                                    | None => ""
                                    end) cs]) /\
    (forall s, s ∈ main_symbols e -> s ∈ cs) /\
    (forall c, c ∈ cs -> c ∉ main_symbols e -> prices !! c = None).
Proof.
  pose proof (proj1 (proj2 (main_symbols_props e))) as Hn.
  unfold main.
  destruct (get_prices fs (env_cmc_api_key e) resp (main_symbols e) (main_convert e))
    as [prices|ex] eqn:Hg; [|discriminate].
  destruct (reconcile_shape_cols f ts (main_symbols e) (repr <$> prices))
    as (cs & body & Hout & _ & _ & Hin).
  rewrite Hout. intros [= _ <-]. exists prices, cs, body. split; [done|]. split.
  - rewrite (List.map_ext (fun c => default "" ((repr <$> prices) !! c))
               (fun c => match prices !! c with Some p => repr p | None => "" end))
      by (intros c; rewrite lookup_fmap; by destruct (prices !! c)).
    reflexivity.
  - split.
    + intros s Hs. apply Hin. by rewrite Hn.
    + intros c Hc Hnc. destruct (prices !! c) as [p|] eqn:Hp; [|done].
      exfalso. apply Hnc. rewrite <- Hn. exact (get_prices_dom _ _ _ _ _ _ Hg c p Hp).
Qed.

(** A 200 response whose [data] member is missing, [null] or otherwise
    falsy gives an empty price map, not an error. *)
Theorem get_prices_empty_data (fs : string -> result spec_float) (k : string)
    (symbols : list string) (convert : string) (kvs : list (string * json))
    (status ec : json) :
  k <> "" -> normalize_symbols symbols <> [] ->
  py_get (JObj kvs) "status" (JObj []) = Ok status ->
  py_get (or_empty status) "error_code" (JInt 0) = Ok ec -> ne_zero ec = false ->
  (obj_get kvs "data" = None \/ exists v, obj_get kvs "data" = Some v /\ truthy v = false) ->
  get_prices fs (Some k) (Response 200 (Some (JObj kvs))) symbols convert = Ok ∅.
Proof.
  intros Hk Hne Hs He Hz Hd. destruct k as [|c k]; [done|].
  unfold get_prices. cbv zeta.
  destruct (normalize_symbols symbols) as [|s0 l] eqn:Hn; [done|].
  cbn [negb Z.eqb Pos.eqb]. rewrite Hs, He, Hz, (py_get_obj kvs "data").
  assert (Hr : or_empty (match obj_get kvs "data" with Some x => x | None => JObj [] end)
               = JObj []).
  { destruct Hd as [->|(v & -> & Hv)]; [reflexivity|]. unfold or_empty. by rewrite Hv. }
  rewrite Hr. apply fold_collect_empty.
Qed.

(** A [status] object whose [error_code] is [null] makes the call raise the
    API-error [RuntimeError] ([None != 0] holds). *)
Theorem get_prices_null_error_code (fs : string -> result spec_float) (k : string)
    (symbols : list string) (convert : string) (kvs skvs : list (string * json)) :
  k <> "" -> normalize_symbols symbols <> [] ->
  obj_get kvs "status" = Some (JObj skvs) -> obj_get skvs "error_code" = Some JNull ->
  get_prices fs (Some k) (Response 200 (Some (JObj kvs))) symbols convert =
  Err (RuntimeError ApiErrorCode).
Proof.
  intros Hk Hne Hs He. destruct k as [|c k]; [done|].
  unfold get_prices. cbv zeta.
  destruct (normalize_symbols symbols) as [|s0 l] eqn:Hn; [done|].
  cbn [negb Z.eqb Pos.eqb]. rewrite (py_get_obj kvs "status"), Hs.
  assert (Ho : or_empty (JObj skvs) = JObj skvs).
  { destruct skvs as [|kv skvs]; [discriminate|]. reflexivity. }
  rewrite Ho, (py_get_obj skvs "error_code"), He. reflexivity.
Qed.

(** A 200 response whose JSON body is not an object raises
    [AttributeError] ([data.get] on a list, string, number, ...). *)
Theorem get_prices_non_object_body (fs : string -> result spec_float) (k : string)
    (symbols : list string) (convert : string) (data : json) :
  k <> "" -> normalize_symbols symbols <> [] -> (forall kvs, data <> JObj kvs) ->
  get_prices fs (Some k) (Response 200 (Some data)) symbols convert = Err AttributeError.
Proof.
  intros Hk Hne Hd. destruct k as [|c k]; [done|].
  unfold get_prices. cbv zeta.
  destruct (normalize_symbols symbols) as [|s0 l] eqn:Hn; [done|].
  destruct data as [| | | | | |kvs]; try reflexivity. by destruct (Hd kvs).
Qed.

(** The loop stops at the first symbol whose lookup raises, or whose
    [float] raises anything but [TypeError] or [ValueError]: the whole call
    raises that exception and no partial map is returned. *)
Theorem get_prices_first_error (fs : string -> result spec_float) (k : string)
    (symbols : list string) (convert : string) (data status ec returned : json)
    (pre : list string) (s : string) (post : list string) (e : exn) :
  k <> "" ->
  py_get data "status" (JObj []) = Ok status ->
  py_get (or_empty status) "error_code" (JInt 0) = Ok ec -> ne_zero ec = false ->
  py_get data "data" (JObj []) = Ok returned ->
  normalize_symbols symbols = pre ++ s :: post ->
  (forall p, p ∈ pre -> exists q, quote_price (or_empty returned) p convert = Ok q /\
     forall price e', q = Some price -> py_float fs price = Err e' ->
                      e' = TypeError \/ e' = ValueError) ->
  (quote_price (or_empty returned) s convert = Err e \/
   exists price, quote_price (or_empty returned) s convert = Ok (Some price) /\
                 py_float fs price = Err e /\ e <> TypeError /\ e <> ValueError) ->
  get_prices fs (Some k) (Response 200 (Some data)) symbols convert = Err e.
Proof.
  intros Hk Hs He Hz Hd Hsplit Hpre Hbad. destruct k as [|c k]; [done|].
  pose proof (NoDup_normalize_symbols symbols) as Hnd. rewrite Hsplit in Hnd.
  apply NoDup_app in Hnd as (Hnd & _ & _).
  unfold get_prices. cbv zeta.
  destruct (normalize_symbols symbols) as [|y ys] eqn:Hn;
    [by destruct pre|].
  cbn [negb Z.eqb Pos.eqb]. rewrite Hs, He, Hz, Hd, Hsplit, fold_left_app.
  destruct (collect_complete fs (or_empty returned) convert pre ∅ Hnd
              (fun _ _ => lookup_empty _) Hpre) as (out & Hout & _).
  rewrite Hout. cbn [fold_left].
  assert (Hstep : collect_step fs (or_empty returned) convert (Ok out) s = Err e).
  { unfold collect_step.
    destruct Hbad as [Hq|(price & Hq & Hf & H1 & H2)]; rewrite Hq; [reflexivity|].
    rewrite Hf. by destruct e. }
  rewrite Hstep. apply fold_collect_err.
Qed.

(** After any call, a later call whose symbols were all requested before
    leaves every record in place and appends one row over the same
    columns. *)
Theorem reconcile_second_call_appends (f : csv_file) (ts : string)
    (symbols : list string) (pm : gmap string string) (out : list record)
    (ts' : string) (symbols' : list string) (pm' : gmap string string) :
  ensure_header_and_append_row f ts symbols pm = Some out ->
  (forall s, s ∈ normalize_symbols symbols' -> s ∈ normalize_symbols symbols) ->
  exists cs,
    head out = Some ("timestamp" :: cs) /\
    ensure_header_and_append_row (Some out) ts' symbols' pm' =
    Some (out ++ [ts' :: map (fun c => default "" (pm' !! c)) cs]).
Proof.
  intros H Hsub.
  destruct (reconcile_shape_cols f ts symbols pm) as (cs & body & Hout & Hts & He & Hin).
  rewrite Hout in H. injection H as <-. exists cs. split; [done|].
  rewrite reconcile_existing by done.
  assert (Hnew : new_cols_of cs (normalize_symbols symbols') = []).
  { destruct (new_cols_of cs (normalize_symbols symbols')) as [|c l] eqn:E; [done|].
    exfalso. assert (Hc : c ∈ new_cols_of cs (normalize_symbols symbols'))
      by (rewrite E; set_solver).
    apply elem_of_new_cols_of in Hc as [H1 H2]. by apply H2, Hin, Hsub. }
  rewrite Hnew, bool_decide_eq_true_2 by done. rewrite !app_nil_r. reflexivity.
Qed.

(** The reconciler keeps ledgers well formed: from an absent file or a
    well-formed ledger, the file it writes has the header [timestamp]
    followed by distinct non-empty columns other than [timestamp], and
    every data record has one cell per column. *)
Theorem reconcile_well_formed (f : csv_file) (ts : string) (symbols : list string)
    (pm : gmap string string) (out : list record) :
  (f = None \/ exists recs, f = Some recs /\ wf_ledger recs) ->
  ensure_header_and_append_row f ts symbols pm = Some out ->
  wf_ledger out.
Proof.
  intros [->|(recs & -> & Hw)] H; [by eapply wf_ledger_create|by eapply wf_ledger_update].
Qed.

(** When no normalised symbol contains a comma, the [symbol] parameter of
    the request, split on commas, is exactly the normalised symbol list. *)
Theorem symbol_param_roundtrip (symbols : list string) :
  normalize_symbols symbols <> [] ->
  Forall (fun x => no_comma x = true) (normalize_symbols symbols) ->
  split_comma (symbol_param symbols) = normalize_symbols symbols.
Proof. intros Hne Hc. unfold symbol_param. by apply split_comma_concat. Qed.

(** Symbols are compared after trimming and upper-casing: the normaliser,
    [get_prices] and the reconciler give the same results on the raw
    symbols and on their trimmed upper-case forms. *)
Theorem symbols_case_insensitive (symbols : list string) :
  normalize_symbols (map (fun s => upper (strip s)) symbols) = normalize_symbols symbols /\
  (forall fs key resp convert,
     get_prices fs key resp (map (fun s => upper (strip s)) symbols) convert =
     get_prices fs key resp symbols convert) /\
  (forall f ts pm,
     ensure_header_and_append_row f ts (map (fun s => upper (strip s)) symbols) pm =
     ensure_header_and_append_row f ts symbols pm).
Proof.
  change (map (fun s => upper (strip s)) symbols) with (map canon symbols).
  pose proof (normalize_symbols_map_canon symbols) as Hc.
  split; [done|]. split.
  - intros fs key resp convert. unfold get_prices. by rewrite Hc.
  - intros f ts pm. unfold ensure_header_and_append_row. by rewrite Hc.
Qed.

(* ------------------------------------------------------------------ *)
(** ** Instances of the further properties *)

(** [main] with [SYMBOLS=btc] on a ledger with columns [ETH, BTC]: the
    [ETH] column of the new row is empty. *)
Lemma main_success_ledger_witness :
  main reject_str (fun _ => "5.0")
    {| env_cmc_api_key := Some "key"; env_symbols := Some "btc"; env_convert := None |}
    (Response 200 (Some (quote_body "BTC" "USD" (JInt 5)))) "T1"
    (Some [["timestamp"; "ETH"; "BTC"]; ["T0"; "1"; "2"]]) =
    (Ok tt, Some [["timestamp"; "ETH"; "BTC"]; ["T0"; "1"; "2"]; ["T1"; ""; "5.0"]]) /\
  exists prices cs body,
    get_prices reject_str (Some "key") (Response 200 (Some (quote_body "BTC" "USD" (JInt 5))))
      (main_symbols {| env_cmc_api_key := Some "key"; env_symbols := Some "btc";
                       env_convert := None |})
      (main_convert {| env_cmc_api_key := Some "key"; env_symbols := Some "btc";
                       env_convert := None |}) = Ok prices /\
    Some [["timestamp"; "ETH"; "BTC"]; ["T0"; "1"; "2"]; ["T1"; ""; "5.0"]] =
      Some (("timestamp" :: cs) :: body ++
            ["T1" :: map (fun c => match prices !! c with
                                   | Some p => (fun _ => "5.0") p
                                   | None => ""
                                   end) cs]) /\
    (forall s, s ∈ main_symbols {| env_cmc_api_key := Some "key"; env_symbols := Some "btc";
                                   env_convert := None |} -> s ∈ cs) /\
    (forall c, c ∈ cs -> c ∉ main_symbols {| env_cmc_api_key := Some "key";
                                             env_symbols := Some "btc";
                                             env_convert := None |} ->
               prices !! c = None).
Proof.
  assert (H : main reject_str (fun _ => "5.0")
    {| env_cmc_api_key := Some "key"; env_symbols := Some "btc"; env_convert := None |}
    (Response 200 (Some (quote_body "BTC" "USD" (JInt 5)))) "T1"
    (Some [["timestamp"; "ETH"; "BTC"]; ["T0"; "1"; "2"]]) =
    (Ok tt, Some [["timestamp"; "ETH"; "BTC"]; ["T0"; "1"; "2"]; ["T1"; ""; "5.0"]]))
    by (vm_compute; reflexivity).
  split; [exact H|]. exact (main_success_ledger _ _ _ _ _ _ _ _ H).
Defined.

(** A 200 response with [data: null]. *)
Lemma get_prices_empty_data_witness :
  ("key" <> "" /\ normalize_symbols ["btc"] <> [] /\
   py_get (JObj [("status", JObj [("error_code", JInt 0)]); ("data", JNull)]) "status"
     (JObj []) = Ok (JObj [("error_code", JInt 0)]) /\
   py_get (or_empty (JObj [("error_code", JInt 0)])) "error_code" (JInt 0) = Ok (JInt 0) /\
   ne_zero (JInt 0) = false /\
   (obj_get [("status", JObj [("error_code", JInt 0)]); ("data", JNull)] "data" = None \/
    exists v, obj_get [("status", JObj [("error_code", JInt 0)]); ("data", JNull)] "data"
                = Some v /\ truthy v = false)) /\
  get_prices reject_str (Some "key")
    (Response 200 (Some (JObj [("status", JObj [("error_code", JInt 0)]); ("data", JNull)])))
    ["btc"] "USD" = Ok ∅.
Proof.
  assert (Hk : "key" <> "") by discriminate.
  assert (Hn : normalize_symbols ["btc"] <> []) by (vm_compute; discriminate).
  assert (Hd : obj_get [("status", JObj [("error_code", JInt 0)]); ("data", JNull)] "data"
                 = None \/
               exists v, obj_get [("status", JObj [("error_code", JInt 0)]); ("data", JNull)]
                           "data" = Some v /\ truthy v = false)
    by (right; exists JNull; split; reflexivity).
  split; [repeat split; first [exact Hk | exact Hn | exact Hd | reflexivity]|].
  exact (get_prices_empty_data reject_str "key" ["btc"] "USD"
           [("status", JObj [("error_code", JInt 0)]); ("data", JNull)]
           (JObj [("error_code", JInt 0)]) (JInt 0) Hk Hn eq_refl eq_refl eq_refl Hd).
Defined.

(** A response [{"status": {"error_code": null}}]. *)
Lemma get_prices_null_error_code_witness :
  ("key" <> "" /\ normalize_symbols ["btc"] <> [] /\
   obj_get [("status", JObj [("error_code", JNull)])] "status" =
     Some (JObj [("error_code", JNull)]) /\
   obj_get [("error_code", JNull)] "error_code" = Some JNull) /\
  get_prices reject_str (Some "key")
    (Response 200 (Some (JObj [("status", JObj [("error_code", JNull)])])))
    ["btc"] "USD" = Err (RuntimeError ApiErrorCode).
Proof.
  assert (Hk : "key" <> "") by discriminate.
  assert (Hn : normalize_symbols ["btc"] <> []) by (vm_compute; discriminate).
  split; [repeat split; first [exact Hk | exact Hn | reflexivity]|].
  exact (get_prices_null_error_code reject_str "key" ["btc"] "USD"
           [("status", JObj [("error_code", JNull)])] [("error_code", JNull)]
           Hk Hn eq_refl eq_refl).
Defined.

(** A 200 response whose body is a JSON array. *)
Lemma get_prices_non_object_body_witness :
  ("key" <> "" /\ normalize_symbols ["btc"] <> [] /\
   forall kvs, JArr [] <> JObj kvs) /\
  get_prices reject_str (Some "key") (Response 200 (Some (JArr []))) ["btc"] "USD" =
  Err AttributeError.
Proof.
  assert (Hk : "key" <> "") by discriminate.
  assert (Hn : normalize_symbols ["btc"] <> []) by (vm_compute; discriminate).
  assert (Hd : forall kvs, JArr [] <> JObj kvs) by discriminate.
  split; [split; [exact Hk|split; [exact Hn|exact Hd]]|].
  exact (get_prices_non_object_body reject_str "key" ["btc"] "USD" _ Hk Hn Hd).
Defined.

(** [ETH] has a price [null] and is skipped; the integer price of [BTC]
    does not fit a float, so the call raises [OverflowError]. *)
Lemma get_prices_first_error_witness :
  get_prices reject_str (Some "key")
    (Response 200 (Some (JObj [("status", JObj []);
      ("data", JObj [("ETH", JObj [("quote", JObj [("USD", JObj [("price", JNull)])])]);
                     ("BTC", JObj [("quote", JObj [("USD",
                        JObj [("price", JInt (10 ^ 400))])])])])])))
    ["eth"; "btc"] "USD" = Err OverflowError.
Proof.
  set (R := JObj [("ETH", JObj [("quote", JObj [("USD", JObj [("price", JNull)])])]);
                  ("BTC", JObj [("quote", JObj [("USD",
                     JObj [("price", JInt (10 ^ 400))])])])]).
  apply (get_prices_first_error reject_str "key" ["eth"; "btc"] "USD"
           (JObj [("status", JObj []); ("data", R)]) (JObj []) (JInt 0) R
           ["ETH"] "BTC" []).
  - discriminate.
  - reflexivity.
  - reflexivity.
  - reflexivity.
  - reflexivity.
  - vm_compute. reflexivity.
  - intros p Hp. apply list_elem_of_singleton in Hp as ->. exists None.
    split; [vm_compute; reflexivity|]. discriminate.
  - right. exists (JInt (10 ^ 400)). split; [vm_compute; reflexivity|].
    split; [vm_compute; reflexivity|]. split; discriminate.
Defined.

(** A ledger created for [BTC, ETH], then a call for [eth]. *)
Lemma reconcile_second_call_appends_witness :
  (ensure_header_and_append_row None "T1" ["BTC"; "ETH"] {["BTC" := "5"]} =
     Some [["timestamp"; "BTC"; "ETH"]; ["T1"; "5"; ""]] /\
   forall s, s ∈ normalize_symbols ["eth"] -> s ∈ normalize_symbols ["BTC"; "ETH"]) /\
  exists cs,
    head [["timestamp"; "BTC"; "ETH"]; ["T1"; "5"; ""]] = Some ("timestamp" :: cs) /\
    ensure_header_and_append_row (Some [["timestamp"; "BTC"; "ETH"]; ["T1"; "5"; ""]])
      "T2" ["eth"] ∅ =
    Some ([["timestamp"; "BTC"; "ETH"]; ["T1"; "5"; ""]] ++
          ["T2" :: map (fun c => default "" ((∅ : gmap string string) !! c)) cs]).
Proof.
  assert (H : ensure_header_and_append_row None "T1" ["BTC"; "ETH"] {["BTC" := "5"]} =
              Some [["timestamp"; "BTC"; "ETH"]; ["T1"; "5"; ""]])
    by (vm_compute; reflexivity).
  assert (Hs : forall s, s ∈ normalize_symbols ["eth"] ->
                         s ∈ normalize_symbols ["BTC"; "ETH"]).
  { intros s. vm_compute. set_solver. }
  split; [split; [exact H|exact Hs]|].
  exact (reconcile_second_call_appends _ _ _ _ _ "T2" ["eth"] ∅ H Hs).
Defined.

(** A call on an absent file. *)
Lemma reconcile_well_formed_witness :
  ((@None (list record) = None \/
    exists recs, @None (list record) = Some recs /\ wf_ledger recs) /\
   ensure_header_and_append_row None "T1" ["btc"] ∅ =
     Some [["timestamp"; "BTC"]; ["T1"; ""]]) /\
  wf_ledger [["timestamp"; "BTC"]; ["T1"; ""]].
Proof.
  assert (H : ensure_header_and_append_row None "T1" ["btc"] ∅ =
              Some [["timestamp"; "BTC"]; ["T1"; ""]]) by (vm_compute; reflexivity).
  assert (Hf : @None (list record) = None \/
               exists recs, @None (list record) = Some recs /\ wf_ledger recs)
    by (left; reflexivity).
  split; [split; [exact Hf|exact H]|].
  exact (reconcile_well_formed None "T1" ["btc"] ∅ _ Hf H).
Defined.

(** The symbols [btc, eth]. *)
Lemma symbol_param_roundtrip_witness :
  (normalize_symbols ["btc"; "eth"] <> [] /\
   Forall (fun x => no_comma x = true) (normalize_symbols ["btc"; "eth"])) /\
  split_comma (symbol_param ["btc"; "eth"]) = normalize_symbols ["btc"; "eth"].
Proof.
  assert (Hn : normalize_symbols ["btc"; "eth"] <> []) by (vm_compute; discriminate).
  assert (Hc : Forall (fun x => no_comma x = true) (normalize_symbols ["btc"; "eth"]))
    by (vm_compute; repeat constructor).
  split; [split; [exact Hn|exact Hc]|].
  exact (symbol_param_roundtrip _ Hn Hc).
Defined.
